(** * PrettierEditProvider: a shallow embedding of [src/PrettierEditProvider.ts]

    The provider is a dispatch layer between an editor host, a formatter
    (prettier, bundled or project-local) and a linter with autofix
    (standard).  The embedding keeps the shape of the TypeScript source:

    - JavaScript objects used as option bags are finite maps from property
      names to JavaScript values ([gmap string jsval]); a property that is
      set to [undefined] is a key of the map, a missing property is not;
    - the asynchronous chain of [format] is a computation in a small monad
      [M] that threads the log of observable calls (the formatter, the
      linter, the config lookup, the output channel) and can end in a
      rejection;
    - the external collaborators (host settings, package lookup, the two
      libraries, the language tables) are the fields of a record [World]. *)

From stdpp Require Import base strings list gmap.
From Stdlib Require Import ZArith Lia.

Local Open Scope Z_scope.
Local Open Scope string_scope.

(** ** JavaScript values and option bags *)

Inductive jsval : Type :=
| JUndefined
| JNull
| JBool (b : bool)
| JNum (z : Z)
| JStr (s : string)
| JObj (fields : jsfields)
with jsfields : Type :=
| FNil
| FCons (key : string) (value : jsval) (rest : jsfields).

(** [Partial<PrettierConfig>]: an object with some of the formatter's keys. *)
Abbreviation Config := (gmap string jsval).

(** [ParserOption] is a string enumeration in [types.d.ts]. *)
Abbreviation ParserOption := string (only parsing).

(** Property read [o.k]: the value of the key, [undefined] when missing. *)
Definition get_prop (o : Config) (k : string) : jsval :=
  default JUndefined (o !! k).

(** [Object.assign(target, ...sources)]: every own property of each source,
    in order, is written onto the target; later writers win, values are
    copied as they are (no recursion into nested objects). *)
Definition Object_assign (target : Config) (sources : list Config) : Config :=
  foldl (fun acc src => src ∪ acc) target sources.

(** [mergeConfig] (lines 73-86). *)
Definition mergeConfig (hasPrettierConfig : bool)
    (additionalConfig prettierConfig vscodeConfig : Config) : Config :=
  if hasPrettierConfig
  then Object_assign {[ "parser" := get_prop vscodeConfig "parser" ]}
         [prettierConfig; additionalConfig]
  else Object_assign vscodeConfig [prettierConfig; additionalConfig].

(** ** Outcomes of calls and the log of observable calls *)

(** A thrown value or rejection reason. *)
Inductive error : Type := Error (message : string).

(** How a call or a promise ends. *)
Inductive outcome (A : Type) : Type :=
| Resolved (a : A)
| Rejected (e : error).
Arguments Resolved {A} a.
Arguments Rejected {A} e.

(** Which copy of the formatter a call goes to. *)
Inductive engine : Type := Bundled | Local.

(** The options object of [standard.lintText]. *)
Record LintOptions : Type := { fix_ : bool; lint_parser : string }.

(** The options object of the library's [resolveConfig]. *)
Record ResolveOptions : Type := { editorconfig : option bool }.

(** Calls that leave the module, in the order they happen. *)
Inductive event : Type :=
| AddToOutput (message : string)
| SetUsedModule (name version : string) (bundled : bool)
| LibResolveConfig (filePath : string) (options : option ResolveOptions)
| LibFormat (which : engine) (text : string) (options : Config)
| LintText (text : string) (options : LintOptions)
| ReportError (e : error) (fileName : string).

(** A computation: the calls it made, and how it ended.  The module never
    reads the log back, so a computation is the pair itself. *)
Definition M (A : Type) : Type := list event * outcome A.

Definition ret {A} (a : A) : M A := ([], Resolved a).

Definition bind {A B} (m : M A) (k : A -> M B) : M B :=
  match m with
  | (l, Resolved a) => let (l', r) := k a in ((l ++ l')%list, r)
  | (l, Rejected e) => (l, Rejected e)
  end.

(** [await o] / a call whose result is [o]: resolves or throws. *)
Definition await {A} (o : outcome A) : M A := ([], o).

Definition emit (ev : event) : M unit := ([ev], Resolved tt).

(** [try { m } catch (e) { h e }], and [promise.catch(h)]. *)
Definition try_catch {A} (m : M A) (h : error -> M A) : M A :=
  match m with
  | (l, Rejected e) => let (l', r) := h e in ((l ++ l')%list, r)
  | ok => ok
  end.

Definition calls {A} (m : M A) : list event := fst m.
Definition result {A} (m : M A) : outcome A := snd m.

Declare Scope m_scope.
Delimit Scope m_scope with M.
Notation "'let*' x ':=' c 'in' k" := (bind c (fun x => k))
  (at level 10, x pattern, c at level 100, k at level 200) : m_scope.
Notation "c ';;' k" := (bind c (fun _ => k))
  (at level 100, k at level 200, right associativity) : m_scope.
Local Open Scope m_scope.

(** ** The world outside the module *)

(** The [Prettier] interface of [types.d.ts], as far as the module uses it. *)
Record Prettier : Type := {
  version : string;
  prettier_format : string -> Config -> outcome string;
  prettier_resolveConfig :
    string -> option ResolveOptions -> outcome (option Config);
}.

(** The host settings object, [PrettierVSCodeConfig]. *)
Record PrettierVSCodeConfig : Type := {
  printWidth : jsval;
  tabWidth : jsval;
  singleQuote : jsval;
  trailingComma : jsval;
  bracketSpacing : jsval;
  jsxBracketSameLine : jsval;
  parser : ParserOption;
  semi : jsval;
  useTabs : jsval;
  proseWrap : jsval;
  arrowParens : jsval;
  disableLanguages : list string;
  requireConfig : bool;
}.

(** An entry of the formatter's language table. *)
Record Language : Type := { name : string; parsers : list ParserOption }.

(** What [standard.lintText] hands to its callback. *)
Record LintResult : Type := { output : string }.
Record LintReport : Type := { results : list LintResult }.

(** The collaborators imported from ['./utils'], ['./requirePkg'],
    ['prettier'] and ['standard'].  The lookups of ['./utils'] and
    ['./requirePkg'] are taken as total functions; the calls into the two
    libraries end in an [outcome]. *)
Record World : Type := {
  getConfig : string -> PrettierVSCodeConfig;
  requireLocalPkg : string -> string -> Prettier;
  bundledPrettier : Prettier;
  getParsersFromLanguageId :
    string -> string -> option string -> list ParserOption;
  getGroup : string -> list Language;
  standard_lintText : string -> LintOptions -> outcome LintReport;
}.

(** ** The host's document model *)

Record Position : Type := { line : Z; character : Z }.
Record Range : Type := { start : Position; end_ : Position }.
Record TextEdit : Type := { range : Range; newText : string }.

(** [new Range(startLine, startCharacter, endLine, endCharacter)] *)
Definition new_Range (sl sc el ec : Z) : Range :=
  {| start := {| line := sl; character := sc |};
     end_ := {| line := el; character := ec |} |}.

(** [TextEdit.replace(range, newText)] *)
Definition TextEdit_replace (r : Range) (t : string) : TextEdit :=
  {| range := r; newText := t |}.

(** A [TextDocument]: its identity, its lines, and the host's offset map. *)
Record TextDocument : Type := {
  fileName : string;
  languageId : string;
  uri : string;
  isUntitled : bool;
  lines : list string;
  eol : string;
  offsetAt : Position -> Z;
}.

Definition getText (d : TextDocument) : string :=
  String.concat (eol d) (lines d).

Definition lineCount (d : TextDocument) : Z := Z.of_nat (length (lines d)).

(** [document.lineAt(i).text]; the host throws for a line out of range. *)
Definition lineAt_text (d : TextDocument) (i : Z) : outcome string :=
  if bool_decide (0 <= i < lineCount d)
  then match lines d !! Z.to_nat i with
       | Some l => Resolved l
       | None => Rejected (Error "Illegal value for `line`")
       end
  else Rejected (Error "Illegal value for `line`").

(** ** The diagnostics collaborator, ['./errorHandler'] *)

(** Modelled from the spec: [addToOutput] of ['./errorHandler'] is not part
    of the source file; section 6 describes it as "append message to
    output". *)
Definition addToOutput (message : string) : M unit :=
  emit (AddToOutput message).

(** Modelled from the spec: [setUsedModule] of ['./errorHandler'] is not
    part of the source file; section 6 describes it as "record which
    formatter module/version is in use and whether it is the fallback". *)
Definition setUsedModule (name version : string) (bundled : bool) : M unit :=
  emit (SetUsedModule name version bundled).

(** Modelled from the spec: [safeExecution] of ['./errorHandler'] is not
    part of the source file; section 4.6 says "On success, returns the
    produced text. On failure, reports the error through a diagnostic
    channel and returns the original, unformatted input text". *)
Definition safeExecution (cb : M string) (defaultText fileName : string)
    : M string :=
  try_catch cb (fun err => emit (ReportError err fileName);; ret defaultText).

(** ** The module *)

Section Provider.

Variable W : World.

(** [standardLintText] (lines 24-30): the callback API as a promise. *)
Definition standardLintText (text : string) (options : LintOptions)
    : M LintReport :=
  emit (LintText text options);;
  await (standard_lintText W text options).

(** What [resolveConfig] resolves to: [{ config, error }]. *)
Record ResolveConfigResult : Type :=
  { config : option Config; error_ : option error }.

(** [resolveConfig] (lines 48-58). *)
Definition resolveConfig (filePath : string)
    (options : option ResolveOptions) : M ResolveConfigResult :=
  try_catch
    (emit (LibResolveConfig filePath options);;
     let* config :=
       await (prettier_resolveConfig (bundledPrettier W) filePath options) in
     ret {| config := config; error_ := None |})
    (fun error => ret {| config := None; error_ := Some error |}).

(** [hasPrettierConfig] (lines 36-39). *)
Definition hasPrettierConfig (filePath : string) : M bool :=
  let* r := resolveConfig filePath None in
  ret (bool_decide (config r <> None)).

(** [bundledParsers[0] || 'babylon']: the first entry unless it is missing
    or falsy (the empty string). *)
Definition first_or_babylon (bundledParsers : list ParserOption)
    : ParserOption :=
  match bundledParsers with
  | p :: _ => if bool_decide (p = "") then "babylon" else p
  | [] => "babylon"
  end.

(** The parser choice of [format] (lines 108-129): the chosen parser and
    the [useBundled] flag. *)
Definition selectParser (vscodeConfig : PrettierVSCodeConfig)
    (localPrettier : Prettier) (d : TextDocument) : ParserOption * bool :=
  let path := if isUntitled d then None else Some (fileName d) in
  let dynamicParsers :=
    getParsersFromLanguageId W (languageId d) (version localPrettier) path in
  match dynamicParsers with
  | [] =>
      let bundledParsers :=
        getParsersFromLanguageId W (languageId d)
          (version (bundledPrettier W)) path in
      (first_or_babylon bundledParsers, true)
  | first :: _ =>
      if bool_decide (parser vscodeConfig ∈ dynamicParsers)
      then (parser vscodeConfig, false)
      else (first, false)
  end.

(** [getGroup('JavaScript').some(lang => lang.parsers.includes(parser))] *)
Definition doesParserSupportEslint (p : ParserOption) : bool :=
  existsb (fun lang => bool_decide (p ∈ parsers lang))
          (getGroup W "JavaScript").

(** The object literal of lines 154-166. *)
Definition hostLayer (vscodeConfig : PrettierVSCodeConfig)
    (p : ParserOption) : Config :=
  list_to_map
    [ ("printWidth", printWidth vscodeConfig);
      ("tabWidth", tabWidth vscodeConfig);
      ("singleQuote", singleQuote vscodeConfig);
      ("trailingComma", trailingComma vscodeConfig);
      ("bracketSpacing", bracketSpacing vscodeConfig);
      ("jsxBracketSameLine", jsxBracketSameLine vscodeConfig);
      ("parser", JStr p);
      ("semi", semi vscodeConfig);
      ("useTabs", useTabs vscodeConfig);
      ("proseWrap", proseWrap vscodeConfig);
      ("arrowParens", arrowParens vscodeConfig) ].

(** [.then(pretty => standardLintText(pretty, ...))
     .then(obj => obj.results[0].output)] (lines 190-192 and 208-210);
    reading [.output] of a missing first entry throws. *)
Definition lintFix (pretty : string) : M string :=
  let* obj :=
    standardLintText pretty {| fix_ := true; lint_parser := "babel-eslint" |} in
  match results obj with
  | r :: _ => ret (output r)
  | [] => await (Rejected (Error "Cannot read property 'output' of undefined"))
  end.

(** A call of [format] of one of the two copies of the formatter. *)
Definition callFormat (which : engine) (p : Prettier) (text : string)
    (options : Config) : M string :=
  emit (LibFormat which text options);;
  await (prettier_format p text options).

Definition fallbackWarning (localPrettier : Prettier) (d : TextDocument)
    : string :=
  "prettier@" +:+ version localPrettier +:+ " doesn't support "
  +:+ languageId d +:+ ". " +:+ "Falling back to bundled prettier@"
  +:+ version (bundledPrettier W) +:+ ".".

Definition resolveFailure (d : TextDocument) : string :=
  "Failed to resolve config for " +:+ fileName d
  +:+ ". Falling back to the default config settings.".

(** The merged options of a request (lines 150-167). *)
Definition prettierOptionsOf (hasConfig : bool) (customOptions : Config)
    (fileOptions : option Config) (vscodeConfig : PrettierVSCodeConfig)
    (p : ParserOption) : Config :=
  mergeConfig hasConfig customOptions (default ∅ fileOptions)
    (hostLayer vscodeConfig p).

(** [format] (lines 93-214). *)
Definition format (text : string) (d : TextDocument) (customOptions : Config)
    : M string :=
  let vscodeConfig := getConfig W (uri d) in
  let localPrettier := requireLocalPkg W (fileName d) "prettier" in
  if bool_decide (languageId d ∈ disableLanguages vscodeConfig) then ret text
  else
    let '(parser_, useBundled) := selectParser vscodeConfig localPrettier d in
    let supportsEslint := doesParserSupportEslint parser_ in
    let* hasConfig := hasPrettierConfig (fileName d) in
    if negb hasConfig && requireConfig vscodeConfig then ret text
    else
      let* r := resolveConfig (fileName d)
                  (Some {| editorconfig := Some true |}) in
      (if error_ r is Some _ then addToOutput (resolveFailure d) else ret tt);;
      let prettierOptions :=
        prettierOptionsOf hasConfig customOptions (config r)
          vscodeConfig parser_ in
      if negb supportsEslint && useBundled then
        safeExecution
          (addToOutput (fallbackWarning localPrettier d);;
           setUsedModule "prettier" (version (bundledPrettier W)) true;;
           let* pretty :=
             callFormat Bundled (bundledPrettier W) text prettierOptions in
           lintFix pretty)
          text (fileName d)
      else
        setUsedModule "prettier" (version localPrettier) false;;
        safeExecution
          (let* pretty :=
             callFormat Local localPrettier text prettierOptions in
           lintFix pretty)
          text (fileName d).

(** [fullDocumentRange] (lines 216-219). *)
Definition fullDocumentRange (d : TextDocument) : M Range :=
  let lastLineId := lineCount d - 1 in
  let* lastText := await (lineAt_text d lastLineId) in
  ret (new_Range 0 0 lastLineId (Z.of_nat (String.length lastText))).

(** ** The class [PrettierEditProvider] (lines 221-258) *)

Variable _fileIsIgnored : string -> bool.

Definition _provideEdits (d : TextDocument) (options : Config)
    : M (list TextEdit) :=
  if negb (isUntitled d) && _fileIsIgnored (fileName d) then ret []
  else
    let* code := format (getText d) d options in
    let* r := fullDocumentRange d in
    ret [TextEdit_replace r code].

Definition provideDocumentRangeFormattingEdits (d : TextDocument)
    (r : Range) : M (list TextEdit) :=
  _provideEdits d
    (list_to_map [ ("rangeStart", JNum (offsetAt d (start r)));
                   ("rangeEnd", JNum (offsetAt d (end_ r))) ]).

Definition provideDocumentFormattingEdits (d : TextDocument)
    : M (list TextEdit) :=
  _provideEdits d ∅.

End Provider.

(** ** Observations on the log *)

Definition isFormatterCall (ev : event) : bool :=
  match ev with LibFormat _ _ _ => true | _ => false end.

Definition isLinterCall (ev : event) : bool :=
  match ev with LintText _ _ => true | _ => false end.

(** The options each formatter call of a log was given. *)
Definition formatterOptions (l : list event) : list Config :=
  omap (fun ev => match ev with LibFormat _ _ o => Some o | _ => None end) l.

Definition isMessage (msg : string) (ev : event) : bool :=
  match ev with AddToOutput m => bool_decide (m = msg) | _ => false end.

(** How many times [msg] was appended to the output channel. *)
Definition countMessage (msg : string) (l : list event) : nat :=
  length (List.filter (isMessage msg) l).

(** The copy of the formatter behind an [engine] tag, for a document. *)
Definition engineOf (W : World) (d : TextDocument) (which : engine)
    : Prettier :=
  match which with
  | Bundled => bundledPrettier W
  | Local => requireLocalPkg W (fileName d) "prettier"
  end.

Definition autofixOptions : LintOptions :=
  {| fix_ := true; lint_parser := "babel-eslint" |}.

(** The formatter calls of a log: engine, text and options of each. *)
Definition formatterCalls (l : list event)
    : list (engine * string * Config) :=
  omap (fun ev => match ev with
                  | LibFormat w t o => Some (w, t, o)
                  | _ => None
                  end) l.

(** The linter calls of a log: text and options of each. *)
Definition linterCalls (l : list event) : list (string * LintOptions) :=
  omap (fun ev => match ev with
                  | LintText t o => Some (t, o)
                  | _ => None
                  end) l.

(** The config lookups of a log: path and options of each, in order. *)
Definition configLookups (l : list event)
    : list (string * option ResolveOptions) :=
  omap (fun ev => match ev with
                  | LibResolveConfig f o => Some (f, o)
                  | _ => None
                  end) l.

(** The [setUsedModule] records of a log. *)
Definition usedModules (l : list event) : list (string * string * bool) :=
  omap (fun ev => match ev with
                  | SetUsedModule n v b => Some (n, v, b)
                  | _ => None
                  end) l.

(** The errors reported to the diagnostic channel. *)
Definition reportedErrors (l : list event) : list (error * string) :=
  omap (fun ev => match ev with
                  | ReportError e f => Some (e, f)
                  | _ => None
                  end) l.

(** ** The quantities of a request *)

(** The quantities [format] computes on the way, as functions of the
    world and the document. *)
Section Request.

Variable W : World.
Variable d : TextDocument.

Definition localPrettierOf : Prettier :=
  requireLocalPkg W (fileName d) "prettier".

Definition chosenParser : ParserOption :=
  fst (selectParser W (getConfig W (uri d)) localPrettierOf d).

Definition useBundledOf : bool :=
  snd (selectParser W (getConfig W (uri d)) localPrettierOf d).

(** The value of [hasConfig] (line 134). *)
Definition hasConfigOf : bool :=
  match prettier_resolveConfig (bundledPrettier W) (fileName d) None with
  | Resolved (Some _) => true
  | _ => false
  end.

(** The outcome of the second lookup (lines 140-142). *)
Definition secondLookup : outcome (option Config) :=
  prettier_resolveConfig (bundledPrettier W) (fileName d)
    (Some {| editorconfig := Some true |}).

(** The value of [fileOptions] (line 140). *)
Definition fileOptionsOf : option Config :=
  match secondLookup with Resolved c => c | Rejected _ => None end.

(** The value of [prettierOptions] (line 150). *)
Definition mergedOptions (customOptions : Config) : Config :=
  prettierOptionsOf hasConfigOf customOptions fileOptionsOf
    (getConfig W (uri d)) chosenParser.

(** The branch taken at line 169. *)
Definition engineUsed : engine :=
  if negb (doesParserSupportEslint W chosenParser) && useBundledOf
  then Bundled else Local.

(** Neither the disabled-language check nor the require-config check
    returns early. *)
Definition reachesFormatter : bool :=
  negb (bool_decide (languageId d ∈ disableLanguages (getConfig W (uri d))))
  && negb (negb hasConfigOf && requireConfig (getConfig W (uri d))).

(** What the promise chain handed to [safeExecution] settles to. *)
Definition chainOutcome (text : string) (customOptions : Config)
    : outcome string :=
  match prettier_format (engineOf W d engineUsed) text
          (mergedOptions customOptions) with
  | Rejected e => Rejected e
  | Resolved pretty =>
      match standard_lintText W pretty autofixOptions with
      | Rejected e => Rejected e
      | Resolved obj =>
          match results obj with
          | r :: _ => Resolved (output r)
          | [] => Rejected
                    (Error "Cannot read property 'output' of undefined")
          end
      end
  end.

(** The calls of a request that reaches the formatter, in order. *)
Definition reachedCalls (text : string) (customOptions : Config)
    : list event :=
  ([ LibResolveConfig (fileName d) None;
     LibResolveConfig (fileName d) (Some {| editorconfig := Some true |}) ]
   ++ (if secondLookup is Rejected _
       then [AddToOutput (resolveFailure d)] else [])
   ++ match engineUsed with
      | Bundled =>
          [ AddToOutput (fallbackWarning W localPrettierOf d);
            SetUsedModule "prettier" (version (bundledPrettier W)) true ]
      | Local => [ SetUsedModule "prettier" (version localPrettierOf) false ]
      end
   ++ [ LibFormat engineUsed text (mergedOptions customOptions) ]
   ++ (if prettier_format (engineOf W d engineUsed) text
            (mergedOptions customOptions) is Resolved pretty
       then [ LintText pretty autofixOptions ] else [])
   ++ (if chainOutcome text customOptions is Rejected e
       then [ ReportError e (fileName d) ] else []))%list.

End Request.

(** ** A concrete world, for running the module *)

Module Scenario.

Definition settings (strict : bool) : PrettierVSCodeConfig :=
  {| printWidth := JNum 80; tabWidth := JNum 2; singleQuote := JBool true;
     trailingComma := JStr "none"; bracketSpacing := JBool true;
     jsxBracketSameLine := JBool false; parser := "babylon";
     semi := JBool true; useTabs := JBool false;
     proseWrap := JStr "preserve"; arrowParens := JStr "avoid";
     disableLanguages := ["markdown"]; requireConfig := strict |}.

(** A formatter that rejects one text and appends a semicolon otherwise;
    its config lookup knows four kinds of project. *)
Definition prettierLib (v : string) : Prettier :=
  {| version := v;
     prettier_format := fun text _ =>
       if bool_decide (text = "const x=(")
       then Rejected (Error "SyntaxError: Unexpected token")
       else Resolved (text +:+ ";");
     prettier_resolveConfig := fun path _ =>
       if bool_decide (path = "/broken/a.js")
       then Rejected (Error "Invalid configuration file")
       else if bool_decide (path = "/undef/a.js")
       then Resolved (Some {[ "parser" := JUndefined ]})
       else if bool_decide (path = "/proj/a.js")
       then Resolved (Some {[ "semi" := JBool false ]})
       else Resolved None |}.

Definition world : World :=
  {| getConfig := fun uri =>
       settings (bool_decide (uri = "file:///strict/a.js")
                 || bool_decide (uri = "file:///broken/a.js"));
     requireLocalPkg := fun _ _ => prettierLib "1.0.0";
     bundledPrettier := prettierLib "1.13.0";
     getParsersFromLanguageId := fun lang v _ =>
       if bool_decide (lang = "javascript") then ["babylon"; "flow"]
       else if bool_decide (v = "1.13.0") then
         if bool_decide (lang = "typescript") then ["typescript"]
         else if bool_decide (lang = "css") then ["postcss"]
         else []
       else [];
     getGroup := fun g =>
       if bool_decide (g = "JavaScript")
       then [ {| name := "JavaScript"; parsers := ["babylon"; "flow"] |};
              {| name := "TypeScript"; parsers := ["typescript"] |} ]
       else [];
     standard_lintText := fun text _ =>
       if bool_decide (text = "lint crash;")
       then Rejected (Error "Parsing error")
       else Resolved {| results := [ {| output := text +:+ " // fixed" |} ] |}
  |}.

Definition doc (path lang : string) (saved : bool) (ls : list string)
    : TextDocument :=
  {| fileName := path; languageId := lang; uri := "file://" +:+ path;
     isUntitled := negb saved; lines := ls;
     eol := String (Ascii.ascii_of_nat 10) EmptyString;
     offsetAt := fun p => 10 * line p + character p |}.

Definition ignored (path : string) : bool :=
  bool_decide (path = "/vendor/lib.js").

End Scenario.

(** ** Variations of the concrete world *)

Module Variants.

(** A linter that resolves without any result entry. *)
Definition silentLinter : World :=
  {| getConfig := getConfig Scenario.world;
     requireLocalPkg := requireLocalPkg Scenario.world;
     bundledPrettier := bundledPrettier Scenario.world;
     getParsersFromLanguageId := getParsersFromLanguageId Scenario.world;
     getGroup := getGroup Scenario.world;
     standard_lintText := fun _ _ => Resolved {| results := [] |} |}.

(** A document whose path has a broken project configuration, opened in
    a workspace that does not require one. *)
Definition brokenConfigDoc : TextDocument :=
  {| fileName := "/broken/a.js"; languageId := "javascript";
     uri := "file:///elsewhere/a.js"; isUntitled := false;
     lines := ["const x=1"]; eol := String (Ascii.ascii_of_nat 10) EmptyString;
     offsetAt := fun p => 10 * line p + character p |}.

(** A project whose configuration file resolves, but whose lookup with
    [editorconfig] enabled fails, in a workspace that requires a project
    configuration. *)
Definition editorconfigBroken : World :=
  {| getConfig := fun _ => Scenario.settings true;
     requireLocalPkg := requireLocalPkg Scenario.world;
     bundledPrettier :=
       {| version := "1.13.0";
          prettier_format :=
            prettier_format (bundledPrettier Scenario.world);
          prettier_resolveConfig := fun _ options =>
            match options with
            | None => Resolved (Some {[ "semi" := JBool false ]})
            | Some _ => Rejected (Error "Invalid .editorconfig")
            end |};
     getParsersFromLanguageId := getParsersFromLanguageId Scenario.world;
     getGroup := getGroup Scenario.world;
     standard_lintText := standard_lintText Scenario.world |}.

End Variants.

(** ** Proof steps *)

Ltac unfold_monad :=
  unfold bind, ret, await, emit, try_catch, calls, result in *; simpl in *.

(** Membership in a log written as appends and conses. *)
Ltac elem_of_log H :=
  repeat first [ rewrite elem_of_app in H
               | rewrite elem_of_cons in H
               | rewrite elem_of_nil in H ];
  destruct_or?; simplify_eq; try done.

(** * Properties *)

(** ** The monad *)

Lemma calls_bind {A B} (m : M A) (k : A -> M B) :
  calls (bind m k) =
  match result m with
  | Resolved a => (calls m ++ calls (k a))%list
  | Rejected _ => calls m
  end.
Proof.
  destruct m as [l [a|e]]; simpl; [|done]. by destruct (k a).
Qed.

Lemma result_bind {A B} (m : M A) (k : A -> M B) :
  result (bind m k) =
  match result m with
  | Resolved a => result (k a)
  | Rejected e => Rejected e
  end.
Proof.
  destruct m as [l [a|e]]; simpl; [|done]. by destruct (k a).
Qed.

(** ** Configuration merge *)

Lemma Object_assign_two (t s1 s2 : Config) (k : string) :
  Object_assign t [s1; s2] !! k =
  match s2 !! k with
  | Some v => Some v
  | None => match s1 !! k with Some v => Some v | None => t !! k end
  end.
Proof.
  unfold Object_assign; simpl. rewrite !lookup_union.
  destruct (s2 !! k), (s1 !! k), (t !! k); done.
Qed.

(** C2: per key, the merged configuration holds the call-site value if
    the call-site layer has the key, else the project-file value if that
    layer has the key, else the host layer's contribution: the whole host
    object when no project configuration exists, only the seeded parser
    when one exists.  Values are taken whole from one layer. *)
Theorem mergeConfig_precedence (hasPrettierConfig : bool)
    (additionalConfig prettierConfig vscodeConfig : Config) (k : string) :
  mergeConfig hasPrettierConfig additionalConfig prettierConfig vscodeConfig
    !! k =
  match additionalConfig !! k with
  | Some v => Some v
  | None =>
      match prettierConfig !! k with
      | Some v => Some v
      | None =>
          if hasPrettierConfig
          then (if bool_decide (k = "parser")
                then Some (get_prop vscodeConfig "parser") else None)
          else vscodeConfig !! k
      end
  end.
Proof.
  unfold mergeConfig. destruct hasPrettierConfig;
    rewrite Object_assign_two; [|done].
  destruct (additionalConfig !! k); [done|].
  destruct (prettierConfig !! k); [done|].
  case_bool_decide as Hk.
  - subst k. by rewrite lookup_singleton_eq.
  - by rewrite lookup_singleton_ne.
Qed.

(** Nested values are replaced whole, never merged into. *)
Example mergeConfig_shallow :
  let nested k v := JObj (FCons k v FNil) in
  mergeConfig false
    {[ "overrides" := nested "semi" (JBool false) ]}
    {[ "overrides" := nested "tabWidth" (JNum 4) ]}
    {[ "overrides" := nested "useTabs" (JBool true) ]}
  = {[ "overrides" := nested "semi" (JBool false) ]}.
Proof. reflexivity. Qed.

(** The seeded parser is a default: either overriding layer replaces it. *)
Example mergeConfig_seed_overridden :
  mergeConfig true ∅ {[ "parser" := JStr "flow" ]}
    {[ "parser" := JStr "babylon"; "semi" := JBool true ]}
  = {[ "parser" := JStr "flow" ]}.
Proof. reflexivity. Qed.

(** ** Shapes of the runs of [format] *)

(** The no-op for a disabled language. *)
Lemma format_disabled_run (W : World) (text : string) (d : TextDocument)
    (customOptions : Config) :
  languageId d ∈ disableLanguages (getConfig W (uri d)) ->
  format W text d customOptions = ([], Resolved text).
Proof.
  intros Hin. unfold format. by rewrite bool_decide_eq_true_2.
Qed.

(** C5: a document whose language is in [disableLanguages] gets its text
    back, and nothing leaves the module: no formatter call, no linter call
    (no call at all). *)
Theorem format_disabled_language (W : World) (text : string)
    (d : TextDocument) (customOptions : Config) :
  languageId d ∈ disableLanguages (getConfig W (uri d)) ->
  result (format W text d customOptions) = Resolved text
  /\ calls (format W text d customOptions) = [].
Proof.
  intros Hin. by rewrite format_disabled_run.
Qed.

Lemma format_disabled_language_witness :
  let d := Scenario.doc "/home/notes.md" "markdown" true ["# title"] in
  languageId d ∈ disableLanguages (getConfig Scenario.world (uri d))
  /\ result (format Scenario.world "# title" d ∅) = Resolved "# title"
  /\ calls (format Scenario.world "# title" d ∅) = [].
Proof.
  assert (H : languageId (Scenario.doc "/home/notes.md" "markdown" true
                            ["# title"])
              ∈ disableLanguages
                  (getConfig Scenario.world
                     (uri (Scenario.doc "/home/notes.md" "markdown" true
                             ["# title"])))).
  { simpl. apply list_elem_of_here. }
  split; [exact H|].
  exact (format_disabled_language Scenario.world "# title" _ ∅ H).
Defined.

(** The wrapper around the library's lookup makes one library call and
    always resolves. *)
Lemma resolveConfig_run (W : World) (filePath : string)
    (options : option ResolveOptions) :
  resolveConfig W filePath options =
  ([LibResolveConfig filePath options],
   Resolved
     match prettier_resolveConfig (bundledPrettier W) filePath options with
     | Resolved c => {| config := c; error_ := None |}
     | Rejected e => {| config := None; error_ := Some e |}
     end).
Proof.
  unfold resolveConfig. unfold_monad.
  by destruct (prettier_resolveConfig _ _ _).
Qed.

Lemma hasPrettierConfig_run (W : World) (filePath : string) :
  hasPrettierConfig W filePath =
  ([LibResolveConfig filePath None],
   Resolved
     match prettier_resolveConfig (bundledPrettier W) filePath None with
     | Resolved (Some _) => true
     | _ => false
     end).
Proof.
  unfold hasPrettierConfig. rewrite resolveConfig_run. unfold_monad.
  by destruct (prettier_resolveConfig _ _ _) as [[c|]|e].
Qed.

(** When the request is skipped for want of a project configuration. *)
Lemma format_skipped_run (W : World) (text : string) (d : TextDocument)
    (customOptions : Config) :
  languageId d ∉ disableLanguages (getConfig W (uri d)) ->
  result (hasPrettierConfig W (fileName d)) = Resolved false ->
  requireConfig (getConfig W (uri d)) = true ->
  format W text d customOptions =
  ([LibResolveConfig (fileName d) None], Resolved text).
Proof.
  intros Hlang Hcfg Hreq. unfold format.
  rewrite bool_decide_eq_false_2 by done.
  destruct (selectParser _ _ _ _) as [p useBundled].
  rewrite hasPrettierConfig_run in Hcfg |- *. simpl in Hcfg.
  injection Hcfg as ->. rewrite Hreq. reflexivity.
Qed.

(** C6: with [requireConfig] set and no project configuration for the
    document's path, [format] returns the text it was given and calls
    neither the formatter nor the linter. *)
Theorem format_require_config (W : World) (text : string)
    (d : TextDocument) (customOptions : Config) :
  requireConfig (getConfig W (uri d)) = true ->
  result (hasPrettierConfig W (fileName d)) = Resolved false ->
  result (format W text d customOptions) = Resolved text
  /\ forall ev, ev ∈ calls (format W text d customOptions) ->
       isFormatterCall ev = false /\ isLinterCall ev = false.
Proof.
  intros Hreq Hcfg.
  destruct (decide (languageId d ∈ disableLanguages (getConfig W (uri d))))
    as [Hin|Hnin].
  - rewrite format_disabled_run by done.
    split; [done|]. intros ev Hev. by apply not_elem_of_nil in Hev.
  - rewrite (format_skipped_run W text d customOptions Hnin Hcfg Hreq).
    split; [done|]. simpl. intros ev Hev.
    apply list_elem_of_singleton in Hev as ->. done.
Qed.

Lemma format_require_config_witness :
  let d := Scenario.doc "/strict/a.js" "javascript" true ["const x=1"] in
  requireConfig (getConfig Scenario.world (uri d)) = true
  /\ result (hasPrettierConfig Scenario.world (fileName d)) = Resolved false
  /\ result (format Scenario.world "const x=1" d ∅) = Resolved "const x=1"
  /\ forall ev, ev ∈ calls (format Scenario.world "const x=1" d ∅) ->
       isFormatterCall ev = false /\ isLinterCall ev = false.
Proof.
  split; [reflexivity|split; [reflexivity|]].
  apply (format_require_config Scenario.world "const x=1"
           (Scenario.doc "/strict/a.js" "javascript" true ["const x=1"]) ∅).
  - reflexivity.
  - reflexivity.
Defined.

(** ** A request that reaches the formatter *)

Lemma format_reached_run (W : World) (d : TextDocument) (text : string)
    (customOptions : Config) :
  reachesFormatter W d = true ->
  format W text d customOptions =
  (reachedCalls W d text customOptions,
   Resolved match chainOutcome W d text customOptions with
            | Resolved s => s
            | Rejected _ => text
            end).
Proof.
  unfold reachesFormatter, reachedCalls, chainOutcome, engineUsed,
    mergedOptions, fileOptionsOf, secondLookup, hasConfigOf, useBundledOf,
    chosenParser, localPrettierOf.
  intros Hreach. apply andb_true_iff in Hreach as [Hlang Hskip].
  apply negb_true_iff in Hlang, Hskip.
  unfold format. rewrite Hlang.
  destruct (selectParser _ _ _ _) as [p useBundled]; simpl.
  rewrite hasPrettierConfig_run, resolveConfig_run.
  unfold bind at 1. simpl. rewrite Hskip.
  unfold autofixOptions, safeExecution, callFormat, lintFix,
    standardLintText, addToOutput, setUsedModule.
  destruct (prettier_resolveConfig _ _ (Some _)) as [c|e]; simpl;
    destruct (negb (doesParserSupportEslint W p) && useBundled); simpl;
    destruct (prettier_format _ _ _) as [pretty|e1]; simpl; try done;
    destruct (standard_lintText _ _ _) as [[[|r rs]]|e2]; simpl; done.
Qed.

Section Reached.

Variable W : World.
Variable d : TextDocument.
Variables (text : string) (customOptions : Config).

Lemma formatter_call_reached (which : engine) (t : string) (o : Config) :
  LibFormat which t o ∈ reachedCalls W d text customOptions ->
  which = engineUsed W d /\ t = text /\ o = mergedOptions W d customOptions.
Proof.
  unfold reachedCalls. intros H.
  destruct (secondLookup W d), (engineUsed W d),
    (prettier_format _ _ _), (chainOutcome W d text customOptions);
    elem_of_log H.
Qed.

Lemma linter_call_reached (t : string) (o : LintOptions) :
  LintText t o ∈ reachedCalls W d text customOptions ->
  o = autofixOptions
  /\ prettier_format (engineOf W d (engineUsed W d)) text
       (mergedOptions W d customOptions) = Resolved t.
Proof.
  unfold reachedCalls. intros H.
  destruct (secondLookup W d), (engineUsed W d),
    (prettier_format _ _ _), (chainOutcome W d text customOptions);
    elem_of_log H.
Qed.

Lemma report_reached (e : error) :
  chainOutcome W d text customOptions = Rejected e ->
  ReportError e (fileName d) ∈ reachedCalls W d text customOptions.
Proof.
  unfold reachedCalls. intros ->.
  rewrite !elem_of_app. do 5 right. apply list_elem_of_here.
Qed.


End Reached.

(** A request that does not reach the formatter makes no call but,
    possibly, the first config lookup, and returns its input. *)
Lemma format_not_reached_run (W : World) (text : string)
    (d : TextDocument) (customOptions : Config) :
  reachesFormatter W d = false ->
  result (format W text d customOptions) = Resolved text
  /\ (calls (format W text d customOptions) = []
      \/ calls (format W text d customOptions)
         = [LibResolveConfig (fileName d) None]).
Proof.
  unfold reachesFormatter. intros H.
  apply andb_false_iff in H as [H|H]; apply negb_false_iff in H.
  - apply bool_decide_eq_true_1 in H.
    rewrite format_disabled_run by done. auto.
  - destruct (decide (languageId d ∈ disableLanguages (getConfig W (uri d))))
      as [Hin|Hnin].
    + rewrite format_disabled_run by done. auto.
    + apply andb_true_iff in H as [Hcfg Hreq].
      apply negb_true_iff in Hcfg.
      rewrite (format_skipped_run W text d customOptions Hnin); auto.
      rewrite hasPrettierConfig_run. simpl. unfold hasConfigOf in Hcfg.
      by rewrite Hcfg.
Qed.

(** [format] never rejects. *)
Lemma format_resolves (W : World) (text : string) (d : TextDocument)
    (customOptions : Config) :
  exists s, result (format W text d customOptions) = Resolved s.
Proof.
  destruct (reachesFormatter W d) eqn:Hr.
  - rewrite format_reached_run by done. eauto.
  - destruct (format_not_reached_run W text d customOptions Hr) as [-> _].
    eauto.
Qed.

(** A JavaScript document without project configuration: both lookups,
    the local formatter with the host settings, then the autofix. *)
Example format_javascript_run :
  let d := Scenario.doc "/home/a.js" "javascript" true ["const x=1"] in
  format Scenario.world "const x=1" d ∅ =
  ([ LibResolveConfig "/home/a.js" None;
     LibResolveConfig "/home/a.js" (Some {| editorconfig := Some true |});
     SetUsedModule "prettier" "1.0.0" false;
     LibFormat Local "const x=1"
       (hostLayer (Scenario.settings false) "babylon");
     LintText "const x=1;" autofixOptions ],
   Resolved "const x=1; // fixed").
Proof. vm_compute. reflexivity. Qed.

(** ** Failures of the configuration lookup *)

(** C10, as the code has it: for every path and options, when the
    library's lookup throws or rejects, [resolveConfig] still resolves,
    with [config] null and [error] set; when the lookup without options
    fails, [hasPrettierConfig] resolves to false, and then, with
    [requireConfig] set, [format] returns its input and calls neither
    formatter nor linter.  A failure of the second lookup alone (the one
    with [editorconfig]) does not stop a request: the failure is logged
    once and the formatter is called, with an empty project-file layer. *)
Theorem resolveConfig_failure (W : World) (filePath : string) :
  (forall options e,
      prettier_resolveConfig (bundledPrettier W) filePath options
        = Rejected e ->
      resolveConfig W filePath options
      = ([LibResolveConfig filePath options],
         Resolved {| config := None; error_ := Some e |}))
  /\ (forall e,
        prettier_resolveConfig (bundledPrettier W) filePath None
          = Rejected e ->
        result (hasPrettierConfig W filePath) = Resolved false)
  /\ (forall e (text : string) (d : TextDocument) (customOptions : Config),
        fileName d = filePath ->
        prettier_resolveConfig (bundledPrettier W) filePath None
          = Rejected e ->
        requireConfig (getConfig W (uri d)) = true ->
        result (format W text d customOptions) = Resolved text
        /\ forall ev, ev ∈ calls (format W text d customOptions) ->
             isFormatterCall ev = false /\ isLinterCall ev = false)
  /\ (forall e (text : string) (d : TextDocument) (customOptions : Config),
        fileName d = filePath ->
        reachesFormatter W d = true ->
        prettier_resolveConfig (bundledPrettier W) filePath
          (Some {| editorconfig := Some true |}) = Rejected e ->
        formatterCalls (calls (format W text d customOptions))
        = [ (engineUsed W d, text,
             mergeConfig (hasConfigOf W d) customOptions ∅
               (hostLayer (getConfig W (uri d)) (chosenParser W d))) ]
        /\ AddToOutput (resolveFailure d)
             ∈ calls (format W text d customOptions)).
Proof.
  split; [|split; [|split]].
  - intros options e Hrej. rewrite resolveConfig_run. by rewrite Hrej.
  - intros e Hrej. rewrite hasPrettierConfig_run. simpl. by rewrite Hrej.
  - intros e text d customOptions <- Hrej Hreq.
    assert (Hhas : result (hasPrettierConfig W (fileName d))
                   = Resolved false).
    { rewrite hasPrettierConfig_run. simpl. by rewrite Hrej. }
    destruct (decide (languageId d ∈ disableLanguages (getConfig W (uri d))))
      as [Hin|Hnin].
    + rewrite format_disabled_run by done.
      split; [done|]. intros ev Hev. by apply not_elem_of_nil in Hev.
    + rewrite (format_skipped_run W text d customOptions Hnin Hhas Hreq).
      split; [done|]. simpl. intros ev Hev.
      apply list_elem_of_singleton in Hev as ->. done.
  - intros e text d customOptions <- Hr Hrej.
    rewrite format_reached_run by done. simpl.
    assert (Hopts : mergedOptions W d customOptions
                    = mergeConfig (hasConfigOf W d) customOptions ∅
                        (hostLayer (getConfig W (uri d)) (chosenParser W d))).
    { unfold mergedOptions, prettierOptionsOf, fileOptionsOf, secondLookup.
      by rewrite Hrej. }
    rewrite <- Hopts. unfold reachedCalls.
    fold (secondLookup W d) in Hrej. rewrite Hrej. split.
    + destruct (engineUsed W d), (prettier_format _ _ _),
        (chainOutcome W d text customOptions); reflexivity.
    + rewrite !elem_of_app. right. left. apply list_elem_of_here.
Qed.

Lemma resolveConfig_failure_witness :
  let d := Scenario.doc "/broken/a.js" "javascript" true ["const x=1"] in
  let e := Error "Invalid configuration file" in
  let d' := Variants.brokenConfigDoc in
  resolveConfig Scenario.world "/broken/a.js"
    (Some {| editorconfig := Some true |})
  = ([LibResolveConfig "/broken/a.js"
        (Some {| editorconfig := Some true |})],
     Resolved {| config := None; error_ := Some e |})
  /\ result (hasPrettierConfig Scenario.world "/broken/a.js")
     = Resolved false
  /\ requireConfig (getConfig Scenario.world (uri d)) = true
  /\ result (format Scenario.world "const x=1" d ∅) = Resolved "const x=1"
  /\ (forall ev, ev ∈ calls (format Scenario.world "const x=1" d ∅) ->
        isFormatterCall ev = false /\ isLinterCall ev = false)
  /\ reachesFormatter Scenario.world d' = true
  /\ formatterCalls (calls (format Scenario.world "const x=1" d' ∅))
     = [ (Local, "const x=1",
          mergeConfig false ∅ ∅
            (hostLayer (Scenario.settings false) "babylon")) ]
  /\ AddToOutput (resolveFailure d')
       ∈ calls (format Scenario.world "const x=1" d' ∅).
Proof.
  destruct (resolveConfig_failure Scenario.world "/broken/a.js")
    as (H1 & H2 & H3 & H4).
  pose proof (H3 (Error "Invalid configuration file") "const x=1"
                (Scenario.doc "/broken/a.js" "javascript" true ["const x=1"])
                ∅ eq_refl eq_refl eq_refl) as [H3a H3b].
  pose proof (H4 (Error "Invalid configuration file") "const x=1"
                Variants.brokenConfigDoc ∅ eq_refl eq_refl eq_refl)
    as [H4a H4b].
  exact (conj (H1 _ _ eq_refl)
           (conj (H2 _ eq_refl)
              (conj eq_refl
                 (conj H3a (conj H3b (conj eq_refl (conj H4a H4b))))))).
Defined.

(** C10 as stated fails for a failure of the second lookup alone: the
    project file resolves, the lookup with [editorconfig] rejects,
    [requireConfig] is set, and [format] still calls the formatter and
    returns formatted text, not its input. *)
Lemma lookup_failure_still_formats :
  let W := Variants.editorconfigBroken in
  let d := Scenario.doc "/home/a.js" "javascript" true ["const x=1"] in
  prettier_resolveConfig (bundledPrettier W) (fileName d)
    (Some {| editorconfig := Some true |})
    = Rejected (Error "Invalid .editorconfig")
  /\ result (resolveConfig W (fileName d)
               (Some {| editorconfig := Some true |}))
     = Resolved {| config := None;
                   error_ := Some (Error "Invalid .editorconfig") |}
  /\ result (hasPrettierConfig W (fileName d)) = Resolved true
  /\ requireConfig (getConfig W (uri d)) = true
  /\ result (format W "const x=1" d ∅) = Resolved "const x=1; // fixed"
  /\ isFormatterCall <$> calls (format W "const x=1" d ∅)
     = [false; false; false; false; true; false].
Proof. vm_compute. repeat split. Qed.

(** ** Failure recovery and the autofix pass *)

(** C1: if the formatter call of a request fails with [e], or its linter
    call fails with [e], then [format] resolves (it does not reject) to
    the text it was given, and the error is reported for the file. *)
Theorem format_failure_recovered (W : World) (text : string)
    (d : TextDocument) (customOptions : Config) (e : error) :
  (exists which t o,
      LibFormat which t o ∈ calls (format W text d customOptions)
      /\ prettier_format (engineOf W d which) t o = Rejected e)
  \/ (exists t o,
      LintText t o ∈ calls (format W text d customOptions)
      /\ standard_lintText W t o = Rejected e) ->
  result (format W text d customOptions) = Resolved text
  /\ ReportError e (fileName d) ∈ calls (format W text d customOptions).
Proof.
  intros Hfail. destruct (reachesFormatter W d) eqn:Hr.
  - rewrite format_reached_run in Hfail |- * by done. simpl in *.
    assert (Hchain : chainOutcome W d text customOptions = Rejected e).
    { destruct Hfail as [(which & t & o & Hin & Hrej)|(t & o & Hin & Hrej)].
      - apply formatter_call_reached in Hin as (-> & -> & ->).
        unfold chainOutcome. by rewrite Hrej.
      - apply linter_call_reached in Hin as [-> Hfmt].
        unfold chainOutcome. by rewrite Hfmt, Hrej. }
    split; [by rewrite Hchain | by apply report_reached].
  - destruct (format_not_reached_run W text d customOptions Hr)
      as [_ [Hc|Hc]]; rewrite Hc in Hfail;
      destruct Hfail as [(which & t & o & Hin & _)|(t & o & Hin & _)];
      elem_of_log Hin.
Qed.

Lemma format_failure_recovered_witness :
  let d := Scenario.doc "/home/a.js" "javascript" true ["const x=("] in
  let e := Error "SyntaxError: Unexpected token" in
  result (format Scenario.world "const x=(" d ∅) = Resolved "const x=("
  /\ ReportError e (fileName d) ∈ calls (format Scenario.world "const x=(" d ∅).
Proof.
  apply (format_failure_recovered Scenario.world "const x=("
           (Scenario.doc "/home/a.js" "javascript" true ["const x=("]) ∅
           (Error "SyntaxError: Unexpected token")).
  left.
  exists Local, "const x=(",
    (mergedOptions Scenario.world
       (Scenario.doc "/home/a.js" "javascript" true ["const x=("]) ∅).
  split; [|reflexivity].
  apply list_elem_of_lookup. exists 3%nat. vm_compute. reflexivity.
Defined.



(** ** Parser selection and the fallback warning *)

Lemma messages_differ (W : World) (p : Prettier) (d : TextDocument) :
  resolveFailure d <> fallbackWarning W p d.
Proof. unfold resolveFailure, fallbackWarning. simpl. discriminate. Qed.

(** The fallback warning is written exactly on the bundled branch. *)
Lemma countMessage_reached (W : World) (d : TextDocument) (text : string)
    (customOptions : Config) :
  countMessage (fallbackWarning W (localPrettierOf W d) d)
    (reachedCalls W d text customOptions)
  = match engineUsed W d with Bundled => 1%nat | Local => 0%nat end.
Proof.
  unfold countMessage, reachedCalls.
  pose proof (messages_differ W (localPrettierOf W d) d) as Hne.
  destruct (secondLookup W d), (engineUsed W d),
    (prettier_format _ _ _), (chainOutcome W d text customOptions);
    simpl;
    rewrite ?(bool_decide_eq_true_2 (fallbackWarning _ _ _ = _)) by done;
    rewrite ?(bool_decide_eq_false_2 (resolveFailure _ = _)) by done;
    reflexivity.
Qed.

(** C4, as the code has it: when the project-local formatter offers no
    parser for the document, the bundled formatter's first candidate is
    chosen (['babylon'] if there is none) and [useBundled] is set; for
    bundled candidates starting with ["typescript"] the parser is
    ["typescript"].  The fallback warning is logged once when the request
    reaches the formatter and the chosen parser is outside the JavaScript
    group, and not at all otherwise. *)
Theorem bundled_fallback_selection (W : World) (text : string)
    (d : TextDocument) (customOptions : Config) :
  let vscodeConfig := getConfig W (uri d) in
  let localPrettier := requireLocalPkg W (fileName d) "prettier" in
  let path := if isUntitled d then None else Some (fileName d) in
  let bundledParsers :=
    getParsersFromLanguageId W (languageId d)
      (version (bundledPrettier W)) path in
  getParsersFromLanguageId W (languageId d) (version localPrettier) path
    = [] ->
  selectParser W vscodeConfig localPrettier d
    = (first_or_babylon bundledParsers, true)
  /\ (forall rest, bundledParsers = "typescript" :: rest ->
        selectParser W vscodeConfig localPrettier d = ("typescript", true))
  /\ countMessage (fallbackWarning W localPrettier d)
       (calls (format W text d customOptions))
     = if reachesFormatter W d
          && negb (doesParserSupportEslint W (first_or_babylon bundledParsers))
       then 1%nat else 0%nat.
Proof.
  intros vscodeConfig localPrettier path bundledParsers Hnone.
  assert (Hsel : selectParser W vscodeConfig localPrettier d
                 = (first_or_babylon bundledParsers, true)).
  { unfold selectParser. fold path. by rewrite Hnone. }
  split; [exact Hsel|split].
  - intros rest Hb. rewrite Hsel, Hb. reflexivity.
  - destruct (reachesFormatter W d) eqn:Hr; simpl.
    + rewrite format_reached_run by done. simpl.
      etrans; [exact (countMessage_reached W d text customOptions)|].
      unfold engineUsed, chosenParser, useBundledOf, localPrettierOf.
      fold vscodeConfig localPrettier. rewrite Hsel. simpl.
      rewrite andb_true_r. by destruct (doesParserSupportEslint _ _).
    + destruct (format_not_reached_run W text d customOptions Hr)
        as [_ [Hc|Hc]]; rewrite Hc; reflexivity.
Qed.

Lemma bundled_fallback_selection_witness :
  let d := Scenario.doc "/home/a.css" "css" true ["a{}"] in
  selectParser Scenario.world (getConfig Scenario.world (uri d))
    (requireLocalPkg Scenario.world (fileName d) "prettier") d
    = ("postcss", true)
  /\ countMessage
       "prettier@1.0.0 doesn't support css. Falling back to bundled prettier@1.13.0."
       (calls (format Scenario.world "a{}" d ∅)) = 1%nat.
Proof.
  destruct (bundled_fallback_selection Scenario.world "a{}"
              (Scenario.doc "/home/a.css" "css" true ["a{}"]) ∅ eq_refl)
    as (Hsel & _ & Hcount).
  exact (conj Hsel Hcount).
Defined.

(** C4 as stated fails: a TypeScript document for which the local
    formatter has no parser and the bundled one offers ["typescript"], and
    a plain-text document for which neither has one, both select through
    the bundled list and yet log no fallback warning, because their
    parsers belong to the JavaScript group. *)
Lemma fallback_warning_not_logged :
  let ts := Scenario.doc "/home/a.ts" "typescript" true ["let a"] in
  let txt := Scenario.doc "/home/a.txt" "plaintext" true ["hello"] in
  let localOf d := requireLocalPkg Scenario.world (fileName d) "prettier" in
  let candidates d v :=
    getParsersFromLanguageId Scenario.world (languageId d) v
      (Some (fileName d)) in
  (candidates ts (version (localOf ts)) = []
   /\ candidates ts (version (bundledPrettier Scenario.world))
      = ["typescript"]
   /\ selectParser Scenario.world (getConfig Scenario.world (uri ts))
        (localOf ts) ts = ("typescript", true)
   /\ isFormatterCall <$> calls (format Scenario.world "let a" ts ∅)
      = [false; false; false; true; false]
   /\ countMessage (fallbackWarning Scenario.world (localOf ts) ts)
        (calls (format Scenario.world "let a" ts ∅)) = 0%nat)
  /\ (candidates txt (version (localOf txt)) = []
      /\ candidates txt (version (bundledPrettier Scenario.world)) = []
      /\ selectParser Scenario.world (getConfig Scenario.world (uri txt))
           (localOf txt) txt = ("babylon", true)
      /\ countMessage (fallbackWarning Scenario.world (localOf txt) txt)
           (calls (format Scenario.world "hello" txt ∅)) = 0%nat).
Proof. vm_compute. repeat split. Qed.

(** ** The parser of the merged configuration *)

(** The host layer always names the inferred parser. *)
Lemma hostLayer_parser (vscodeConfig : PrettierVSCodeConfig)
    (p : ParserOption) :
  hostLayer vscodeConfig p !! "parser" = Some (JStr p).
Proof. reflexivity. Qed.

(** In both branches of the merge the parser entry exists; it is the
    overriding layers' value when one of them has the key, else the
    inferred parser. *)
Lemma prettierOptionsOf_parser (hasConfig : bool) (customOptions : Config)
    (fileOptions : option Config) (vscodeConfig : PrettierVSCodeConfig)
    (p : ParserOption) :
  prettierOptionsOf hasConfig customOptions fileOptions vscodeConfig p
    !! "parser"
  = Some match customOptions !! "parser" with
         | Some v => v
         | None =>
             match default ∅ fileOptions !! "parser" with
             | Some v => v
             | None => JStr p
             end
         end.
Proof.
  unfold prettierOptionsOf, mergeConfig.
  destruct hasConfig; rewrite Object_assign_two;
    (destruct (customOptions !! "parser"); [done|]);
    (destruct (default ∅ fileOptions !! "parser"); [done|]).
  - rewrite lookup_singleton_eq. unfold get_prop.
    by rewrite hostLayer_parser.
  - by rewrite hostLayer_parser.
Qed.

(** C7, as the code has it: the options every formatter call receives
    are the merge of the request, and in both branches of the merge they
    have a parser entry: the call-site value if that layer has the key,
    else the project-file value if that layer has the key, else the
    inferred parser, which is a parser name.  So the parser is defined
    unless one of the two overriding layers itself sets it to
    [undefined]. *)
Theorem merged_parser_present (W : World) (text : string)
    (d : TextDocument) (customOptions : Config) (o : Config) :
  o ∈ formatterOptions (calls (format W text d customOptions)) ->
  o = prettierOptionsOf (hasConfigOf W d) customOptions (fileOptionsOf W d)
        (getConfig W (uri d)) (chosenParser W d)
  /\ (forall hasConfig,
        prettierOptionsOf hasConfig customOptions (fileOptionsOf W d)
          (getConfig W (uri d)) (chosenParser W d) !! "parser"
        = Some match customOptions !! "parser" with
               | Some v => v
               | None =>
                   match default ∅ (fileOptionsOf W d) !! "parser" with
                   | Some v => v
                   | None => JStr (chosenParser W d)
                   end
               end)
  /\ (customOptions !! "parser" <> Some JUndefined ->
      default ∅ (fileOptionsOf W d) !! "parser" <> Some JUndefined ->
      exists v, o !! "parser" = Some v /\ v <> JUndefined).
Proof.
  intros Hin.
  assert (Ho : o = mergedOptions W d customOptions).
  { unfold formatterOptions in Hin. apply list_elem_of_omap in Hin
      as (ev & Hev & Hopt).
    destruct ev as [| | |which t o'| |]; simplify_eq/=.
    destruct (reachesFormatter W d) eqn:Hr.
    - rewrite format_reached_run in Hev by done.
      by apply formatter_call_reached in Hev as (_ & _ & ->).
    - destruct (format_not_reached_run W text d customOptions Hr)
        as [_ [Hc|Hc]]; rewrite Hc in Hev; elem_of_log Hev. }
  split; [exact Ho|split].
  - intros hasConfig. apply prettierOptionsOf_parser.
  - intros Hcustom Hfile. subst o. unfold mergedOptions.
    rewrite prettierOptionsOf_parser. eexists; split; [done|].
    destruct (customOptions !! "parser") as [v|]; [congruence|].
    destruct (default ∅ (fileOptionsOf W d) !! "parser") as [v|];
      [congruence|done].
Qed.

Lemma merged_parser_present_witness :
  let d := Scenario.doc "/proj/a.js" "javascript" true ["const x=1"] in
  let o := mergedOptions Scenario.world d ∅ in
  o ∈ formatterOptions (calls (format Scenario.world "const x=1" d ∅))
  /\ exists v, o !! "parser" = Some v /\ v <> JUndefined.
Proof.
  assert (Hin : mergedOptions Scenario.world
                  (Scenario.doc "/proj/a.js" "javascript" true ["const x=1"]) ∅
                ∈ formatterOptions
                    (calls (format Scenario.world "const x=1"
                       (Scenario.doc "/proj/a.js" "javascript" true
                          ["const x=1"]) ∅))).
  { apply list_elem_of_lookup. exists 0%nat. vm_compute. reflexivity. }
  split; [exact Hin|].
  destruct (merged_parser_present Scenario.world "const x=1"
              (Scenario.doc "/proj/a.js" "javascript" true ["const x=1"])
              ∅ _ Hin) as (_ & _ & Hdef).
  apply Hdef; vm_compute; discriminate.
Defined.

(** C7 as stated fails: a project configuration that sets [parser] to
    [undefined] (a [prettier.config.js] that exports
    [{ parser: undefined }]) overrides the seeded parser, since
    [Object.assign] copies the property as it is, and the formatter is
    called with an undefined parser. *)
Lemma merged_parser_undefined :
  let d := Scenario.doc "/undef/a.js" "javascript" true ["const x=1"] in
  prettier_resolveConfig (bundledPrettier Scenario.world) (fileName d)
    (Some {| editorconfig := Some true |})
    = Resolved (Some {[ "parser" := JUndefined ]})
  /\ chosenParser Scenario.world d = "babylon"
  /\ (fun o : Config => o !! "parser")
       <$> formatterOptions (calls (format Scenario.world "const x=1" d ∅))
     = [Some JUndefined].
Proof. vm_compute. repeat split. Qed.

(** ** The edit provider *)

Section Edits.

Variable W : World.
Variable _fileIsIgnored : string -> bool.
Variable d : TextDocument.

Lemma provideEdits_run (options : Config) :
  _provideEdits W _fileIsIgnored d options =
  if negb (isUntitled d) && _fileIsIgnored (fileName d)
  then ([], Resolved [])
  else
    (calls (format W (getText d) d options),
     match result (format W (getText d) d options) with
     | Resolved code =>
         match lineAt_text d (lineCount d - 1) with
         | Resolved l =>
             Resolved
               [TextEdit_replace
                  (new_Range 0 0 (lineCount d - 1)
                     (Z.of_nat (String.length l))) code]
         | Rejected e => Rejected e
         end
     | Rejected e => Rejected e
     end).
Proof.
  unfold _provideEdits, fullDocumentRange.
  destruct (negb (isUntitled d) && _fileIsIgnored (fileName d)); [done|].
  destruct (format W (getText d) d options) as [l [code|e]]; [|done].
  unfold_monad. destruct (lineAt_text d (lineCount d - 1)); simpl;
    by rewrite ?app_nil_r.
Qed.

(** The last line of the document is the line [lineCount - 1]. *)
Lemma lineAt_last :
  lineAt_text d (lineCount d - 1) =
  match last (lines d) with
  | Some l => Resolved l
  | None => Rejected (Error "Illegal value for `line`")
  end.
Proof.
  unfold lineAt_text, lineCount. rewrite last_lookup.
  destruct (lines d) as [|l0 ls] eqn:Hl; [done|].
  rewrite bool_decide_eq_true_2 by (simpl; lia).
  replace (Z.to_nat (Z.of_nat (length (l0 :: ls)) - 1))
    with (pred (length (l0 :: ls))) by (simpl; lia).
  by destruct ((l0 :: ls) !! pred (length (l0 :: ls))).
Qed.

End Edits.

(** C8: for a saved document whose path the ignore predicate reports as
    ignored, both operations resolve to the empty edit list, and nothing
    leaves the module: no formatter, linter or config lookup call. *)
Theorem ignored_document_no_edits (W : World)
    (_fileIsIgnored : string -> bool) (d : TextDocument) (r : Range) :
  isUntitled d = false ->
  _fileIsIgnored (fileName d) = true ->
  provideDocumentFormattingEdits W _fileIsIgnored d = ([], Resolved [])
  /\ provideDocumentRangeFormattingEdits W _fileIsIgnored d r
     = ([], Resolved []).
Proof.
  intros Hsaved Hign.
  unfold provideDocumentFormattingEdits, provideDocumentRangeFormattingEdits.
  rewrite !provideEdits_run, Hsaved, Hign. done.
Qed.

Lemma ignored_document_no_edits_witness :
  let d := Scenario.doc "/vendor/lib.js" "javascript" true ["var a"] in
  isUntitled d = false
  /\ Scenario.ignored (fileName d) = true
  /\ provideDocumentFormattingEdits Scenario.world Scenario.ignored d
     = ([], Resolved [])
  /\ provideDocumentRangeFormattingEdits Scenario.world Scenario.ignored d
       (new_Range 0 0 0 3)
     = ([], Resolved []).
Proof.
  pose proof (ignored_document_no_edits Scenario.world Scenario.ignored
                (Scenario.doc "/vendor/lib.js" "javascript" true ["var a"])
                (new_Range 0 0 0 3) eq_refl eq_refl) as [H1 H2].
  exact (conj eq_refl (conj eq_refl (conj H1 H2))).
Defined.

(** C9: through either operation a request that is not ignored runs
    [format] on the whole text of the document: the formatter, when the
    request reaches it, is called once, on that text and with the
    request's merged options, to which the range contributes only the
    call-site layer ([rangeStart], [rangeEnd]); and the operation
    resolves to one edit that replaces the span from (0,0) to the end of
    the last line by what [format] resolved to.  A result is never
    anything but no edit or that one edit. *)
Theorem edits_replace_whole_document (W : World)
    (_fileIsIgnored : string -> bool) (d : TextDocument) (r : Range)
    (m : M (list TextEdit)) (options : Config) :
  (m = provideDocumentFormattingEdits W _fileIsIgnored d /\ options = ∅)
  \/ (m = provideDocumentRangeFormattingEdits W _fileIsIgnored d r
      /\ options = {[ "rangeStart" := JNum (offsetAt d (start r));
                      "rangeEnd" := JNum (offsetAt d (end_ r)) ]}) ->
  (forall which t o, LibFormat which t o ∈ calls m ->
     t = getText d /\ o = mergedOptions W d options)
  /\ (forall edits, result m = Resolved edits ->
        edits = []
        \/ exists code lastLine,
             last (lines d) = Some lastLine
             /\ edits =
                [ {| range :=
                       {| start := {| line := 0; character := 0 |};
                          end_ := {| line := lineCount d - 1;
                                     character :=
                                       Z.of_nat (String.length lastLine) |}
                       |};
                     newText := code |} ])
  /\ (lines d <> [] -> exists edits, result m = Resolved edits)
  /\ (isUntitled d = true \/ _fileIsIgnored (fileName d) = false ->
      calls m = calls (format W (getText d) d options)
      /\ formatterCalls (calls m)
         = (if reachesFormatter W d
            then [ (engineUsed W d, getText d, mergedOptions W d options) ]
            else [])
      /\ forall lastLine, last (lines d) = Some lastLine ->
           exists code,
             result (format W (getText d) d options) = Resolved code
             /\ result m =
                Resolved
                  [ {| range :=
                         {| start := {| line := 0; character := 0 |};
                            end_ := {| line := lineCount d - 1;
                                       character :=
                                         Z.of_nat (String.length lastLine) |}
                         |};
                       newText := code |} ]).
Proof.
  intros Hm.
  assert (Hrun : m = _provideEdits W _fileIsIgnored d options).
  { by destruct Hm as [[-> ->]|[-> ->]]. }
  clear Hm. subst m. rewrite provideEdits_run, lineAt_last.
  destruct (negb (isUntitled d) && _fileIsIgnored (fileName d)) eqn:Hcond;
    simpl.
  { split; [|split; [|split]].
    - intros which t o Hin. elem_of_log Hin.
    - intros edits [= <-]. by left.
    - eauto.
    - apply andb_true_iff in Hcond as [Hu Hi].
      apply negb_true_iff in Hu. intros [Hu'|Hi']; congruence. }
  split; [|split; [|split]].
  - intros which t o Hin.
    destruct (reachesFormatter W d) eqn:Hr.
    + rewrite format_reached_run in Hin by done.
      by apply formatter_call_reached in Hin as (_ & -> & ->).
    + destruct (format_not_reached_run W (getText d) d options Hr)
        as [_ [Hc|Hc]]; rewrite Hc in Hin; elem_of_log Hin.
  - intros edits Hres.
    destruct (result (format W (getText d) d options)) as [code|e]; [|done].
    destruct (last (lines d)) as [l|]; [|done].
    injection Hres as <-. right. by exists code, l.
  - intros Hlines.
    destruct (format_resolves W (getText d) d options) as [code ->].
    destruct (last (lines d)) as [l|] eqn:Hlast; [eauto|].
    by apply last_None in Hlast.
  - intros _. split; [done|split].
    + destruct (reachesFormatter W d) eqn:Hr.
      * rewrite format_reached_run by done. simpl. unfold reachedCalls.
        destruct (secondLookup W d), (engineUsed W d),
          (prettier_format _ _ _),
          (chainOutcome W d (getText d) options); reflexivity.
      * destruct (format_not_reached_run W (getText d) d options Hr)
          as [_ [Hc|Hc]]; rewrite Hc; reflexivity.
    + intros lastLine Hlast.
      destruct (format_resolves W (getText d) d options) as [code Hcode].
      exists code. by rewrite Hcode, Hlast.
Qed.

Lemma edits_replace_whole_document_witness :
  let d := Scenario.doc "/proj/a.js" "javascript" true ["x"; "yy"] in
  let r := new_Range 0 0 1 1 in
  let whole := provideDocumentFormattingEdits Scenario.world
                 Scenario.ignored d in
  let ranged := provideDocumentRangeFormattingEdits Scenario.world
                  Scenario.ignored d r in
  let options : Config := {[ "rangeStart" := JNum 0; "rangeEnd" := JNum 11 ]} in
  let edit := {| range := new_Range 0 0 1 2;
                 newText := getText d +:+ "; // fixed" |} in
  (formatterCalls (calls whole)
   = [ (Local, getText d, mergedOptions Scenario.world d ∅) ]
   /\ (exists code,
         result (format Scenario.world (getText d) d ∅) = Resolved code
         /\ result whole
            = Resolved [ {| range := new_Range 0 0 1 2; newText := code |} ])
   /\ result whole = Resolved [edit])
  /\ (formatterCalls (calls ranged)
      = [ (Local, getText d, mergedOptions Scenario.world d options) ]
      /\ (exists code,
            result (format Scenario.world (getText d) d options)
              = Resolved code
            /\ result ranged
               = Resolved [ {| range := new_Range 0 0 1 2;
                               newText := code |} ])
      /\ result ranged = Resolved [edit]).
Proof.
  destruct (edits_replace_whole_document Scenario.world Scenario.ignored
              (Scenario.doc "/proj/a.js" "javascript" true ["x"; "yy"])
              (new_Range 0 0 1 1) _ _ (or_introl (conj eq_refl eq_refl)))
    as (_ & _ & _ & Hwhole).
  destruct (edits_replace_whole_document Scenario.world Scenario.ignored
              (Scenario.doc "/proj/a.js" "javascript" true ["x"; "yy"])
              (new_Range 0 0 1 1) _ _ (or_intror (conj eq_refl eq_refl)))
    as (_ & _ & _ & Hranged).
  destruct (Hwhole (or_intror eq_refl)) as (_ & Hw1 & Hw2).
  destruct (Hranged (or_intror eq_refl)) as (_ & Hr1 & Hr2).
  split.
  - exact (conj Hw1 (conj (Hw2 "yy" eq_refl) eq_refl)).
  - exact (conj Hr1 (conj (Hr2 "yy" eq_refl) eq_refl)).
Defined.

(** * Further properties of the module *)

(** ** Parser selection *)

(** With local candidates the choice stays among them, on the local
    engine: the host's configured parser when it is a candidate, else the
    first candidate. *)
Theorem selectParser_local_candidates (W : World)
    (vscodeConfig : PrettierVSCodeConfig) (localPrettier : Prettier)
    (d : TextDocument) (first : ParserOption) (rest : list ParserOption) :
  getParsersFromLanguageId W (languageId d) (version localPrettier)
    (if isUntitled d then None else Some (fileName d)) = first :: rest ->
  snd (selectParser W vscodeConfig localPrettier d) = false
  /\ fst (selectParser W vscodeConfig localPrettier d) ∈ first :: rest
  /\ (parser vscodeConfig ∈ first :: rest ->
      fst (selectParser W vscodeConfig localPrettier d)
      = parser vscodeConfig)
  /\ (parser vscodeConfig ∉ first :: rest ->
      fst (selectParser W vscodeConfig localPrettier d) = first).
Proof.
  intros Hdyn. unfold selectParser. rewrite Hdyn.
  case_bool_decide as Hin; simpl.
  - split; [done|split; [done|split; [done|]]].
    intros Hnin. by destruct Hnin.
  - split; [done|split; [apply list_elem_of_here|split; [|done]]].
    intros Hin'. by destruct Hin.
Qed.

Lemma selectParser_local_candidates_witness :
  let d := Scenario.doc "/home/a.js" "javascript" true ["const x=1"] in
  let vs := Scenario.settings false in
  let lp := Scenario.prettierLib "1.0.0" in
  snd (selectParser Scenario.world vs lp d) = false
  /\ fst (selectParser Scenario.world vs lp d) ∈ ["babylon"; "flow"]
  /\ fst (selectParser Scenario.world vs lp d) = "babylon".
Proof.
  destruct (selectParser_local_candidates Scenario.world
              (Scenario.settings false) (Scenario.prettierLib "1.0.0")
              (Scenario.doc "/home/a.js" "javascript" true ["const x=1"])
              "babylon" ["flow"] eq_refl) as (H1 & H2 & H3 & _).
  exact (conj H1 (conj H2 (H3 (list_elem_of_here _ _)))).
Defined.

(** Without local candidates the chosen parser is never the empty
    string: it is an entry of the bundled list, or ['babylon'] when that
    list is empty or starts with a falsy entry. *)
Theorem selectParser_fallback_parser (W : World)
    (vscodeConfig : PrettierVSCodeConfig) (localPrettier : Prettier)
    (d : TextDocument) :
  let path := if isUntitled d then None else Some (fileName d) in
  let bundledParsers :=
    getParsersFromLanguageId W (languageId d)
      (version (bundledPrettier W)) path in
  getParsersFromLanguageId W (languageId d) (version localPrettier) path
    = [] ->
  fst (selectParser W vscodeConfig localPrettier d) <> ""
  /\ (head bundledParsers = Some (fst (selectParser W vscodeConfig
                                       localPrettier d))
      \/ ((bundledParsers = [] \/ head bundledParsers = Some "")
          /\ fst (selectParser W vscodeConfig localPrettier d) = "babylon")).
Proof.
  intros path bundledParsers Hdyn. unfold selectParser. fold path.
  rewrite Hdyn. fold bundledParsers. simpl.
  destruct bundledParsers as [|p ps]; simpl.
  - split; [done|]. right. split; [by left|done].
  - case_bool_decide as Hp.
    + subst p. split; [done|]. right. split; [by right|done].
    + split; [done|]. by left.
Qed.

Lemma selectParser_fallback_parser_witness :
  let d := Scenario.doc "/home/a.txt" "plaintext" true ["hello"] in
  fst (selectParser Scenario.world (Scenario.settings false)
         (Scenario.prettierLib "1.0.0") d) <> ""
  /\ fst (selectParser Scenario.world (Scenario.settings false)
            (Scenario.prettierLib "1.0.0") d) = "babylon".
Proof.
  destruct (selectParser_fallback_parser Scenario.world
              (Scenario.settings false) (Scenario.prettierLib "1.0.0")
              (Scenario.doc "/home/a.txt" "plaintext" true ["hello"])
              eq_refl) as [H1 _].
  exact (conj H1 eq_refl).
Defined.

(** ** The calls of a request *)

Ltac reached_cases W d text customOptions :=
  unfold reachedCalls;
  destruct (secondLookup W d), (engineUsed W d),
    (prettier_format _ _ _), (chainOutcome W d text customOptions).

Lemma format_calls_inv (W : World) (text : string) (d : TextDocument)
    (customOptions : Config) (ev : event) :
  ev ∈ calls (format W text d customOptions) ->
  (reachesFormatter W d = true
   /\ ev ∈ reachedCalls W d text customOptions)
  \/ (reachesFormatter W d = false
      /\ ev = LibResolveConfig (fileName d) None).
Proof.
  intros Hin. destruct (reachesFormatter W d) eqn:Hr.
  - left. by rewrite format_reached_run in Hin.
  - right. split; [done|].
    destruct (format_not_reached_run W text d customOptions Hr)
      as [_ [Hc|Hc]]; rewrite Hc in Hin; elem_of_log Hin.
Qed.

Lemma useBundledOf_true_iff (W : World) (d : TextDocument) :
  useBundledOf W d = true <->
  getParsersFromLanguageId W (languageId d)
    (version (requireLocalPkg W (fileName d) "prettier"))
    (if isUntitled d then None else Some (fileName d)) = [].
Proof.
  unfold useBundledOf, localPrettierOf, selectParser.
  destruct (getParsersFromLanguageId _ _ _ _) as [|p ps]; simpl.
  - done.
  - case_bool_decide; simpl; split; congruence.
Qed.

(** A formatter call goes to the bundled copy exactly when the local copy
    offers no parser for the document and the chosen parser is outside
    the JavaScript group; in every other case the project-local copy is
    called, also with a parser taken from the bundled list. *)
Theorem bundled_engine_iff (W : World) (text : string) (d : TextDocument)
    (customOptions : Config) (which : engine) (t : string) (o : Config) :
  LibFormat which t o ∈ calls (format W text d customOptions) ->
  which = Bundled <->
  getParsersFromLanguageId W (languageId d)
    (version (requireLocalPkg W (fileName d) "prettier"))
    (if isUntitled d then None else Some (fileName d)) = []
  /\ doesParserSupportEslint W (chosenParser W d) = false.
Proof.
  intros Hin. apply format_calls_inv in Hin as [[_ Hin]|[_ Hin]]; [|done].
  apply formatter_call_reached in Hin as (-> & _ & _).
  rewrite <- useBundledOf_true_iff. unfold engineUsed.
  destruct (doesParserSupportEslint W (chosenParser W d)),
    (useBundledOf W d); simpl; split; (try done); intros [? ?]; done.
Qed.

Lemma bundled_engine_iff_witness :
  let ts := Scenario.doc "/home/a.ts" "typescript" true ["let a"] in
  LibFormat Local "let a" (mergedOptions Scenario.world ts ∅)
    ∈ calls (format Scenario.world "let a" ts ∅)
  /\ (Local = Bundled <->
      getParsersFromLanguageId Scenario.world "typescript" "1.0.0"
        (Some "/home/a.ts") = []
      /\ doesParserSupportEslint Scenario.world
           (chosenParser Scenario.world ts) = false).
Proof.
  assert (Hin : LibFormat Local "let a"
                  (mergedOptions Scenario.world
                     (Scenario.doc "/home/a.ts" "typescript" true ["let a"])
                     ∅)
                ∈ calls (format Scenario.world "let a"
                           (Scenario.doc "/home/a.ts" "typescript" true
                              ["let a"]) ∅)).
  { apply list_elem_of_lookup. exists 3%nat. vm_compute. reflexivity. }
  split; [exact Hin|].
  exact (bundled_engine_iff Scenario.world "let a" _ ∅ Local "let a" _ Hin).
Defined.

(** A request that reaches the formatter calls it exactly once, on the
    text it was given; a request that is skipped never calls it. *)
Theorem formatter_called_once (W : World) (text : string)
    (d : TextDocument) (customOptions : Config) :
  formatterCalls (calls (format W text d customOptions)) =
  if reachesFormatter W d
  then [ (engineUsed W d, text, mergedOptions W d customOptions) ]
  else [].
Proof.
  destruct (reachesFormatter W d) eqn:Hr.
  - rewrite format_reached_run by done. simpl.
    reached_cases W d text customOptions; reflexivity.
  - destruct (format_not_reached_run W text d customOptions Hr)
      as [_ [Hc|Hc]]; rewrite Hc; reflexivity.
Qed.

(** The module recorded as in use is the one whose [format] is called:
    the record carries that copy's version, and its fallback flag is set
    exactly for the bundled copy. *)
Theorem used_module_is_called_engine (W : World) (text : string)
    (d : TextDocument) (customOptions : Config)
    (n v : string) (b : bool) :
  (n, v, b) ∈ usedModules (calls (format W text d customOptions)) ->
  let which := if b then Bundled else Local in
  n = "prettier"
  /\ v = version (engineOf W d which)
  /\ usedModules (calls (format W text d customOptions)) = [(n, v, b)]
  /\ exists o, LibFormat which text o
               ∈ calls (format W text d customOptions).
Proof.
  intros Hin which. subst which.
  destruct (reachesFormatter W d) eqn:Hr.
  - rewrite format_reached_run in Hin |- * by done. simpl in *.
    assert (Hf : LibFormat (engineUsed W d) text
                   (mergedOptions W d customOptions)
                 ∈ reachedCalls W d text customOptions).
    { unfold reachedCalls. rewrite !elem_of_app. do 3 right. left.
      apply list_elem_of_here. }
    revert Hin Hf. unfold localPrettierOf.
    reached_cases W d text customOptions; simpl; intros Hin Hf;
      apply list_elem_of_singleton in Hin; simplify_eq; eauto.
  - destruct (format_not_reached_run W text d customOptions Hr)
      as [_ [Hc|Hc]]; rewrite Hc in Hin; simpl in Hin;
      by apply not_elem_of_nil in Hin.
Qed.

Lemma used_module_is_called_engine_witness :
  let d := Scenario.doc "/home/a.css" "css" true ["a{}"] in
  usedModules (calls (format Scenario.world "a{}" d ∅))
    = [("prettier", "1.13.0", true)]
  /\ exists o, LibFormat Bundled "a{}" o
               ∈ calls (format Scenario.world "a{}" d ∅).
Proof.
  assert (Hin : ("prettier", "1.13.0", true)
                ∈ usedModules
                    (calls (format Scenario.world "a{}"
                       (Scenario.doc "/home/a.css" "css" true ["a{}"]) ∅))).
  { apply list_elem_of_lookup. exists 0%nat. vm_compute. reflexivity. }
  destruct (used_module_is_called_engine Scenario.world "a{}"
              (Scenario.doc "/home/a.css" "css" true ["a{}"]) ∅
              "prettier" "1.13.0" true Hin) as (_ & _ & H3 & H4).
  exact (conj H3 H4).
Defined.

(** The linter only ever sees what the formatter returned for this
    request, with the autofix options; it is called at most once, and
    never on the raw document text as such. *)
Theorem linter_sees_formatter_output (W : World) (text : string)
    (d : TextDocument) (customOptions : Config)
    (t : string) (o : LintOptions) :
  LintText t o ∈ calls (format W text d customOptions) ->
  linterCalls (calls (format W text d customOptions))
    = [(t, {| fix_ := true; lint_parser := "babel-eslint" |})]
  /\ o = {| fix_ := true; lint_parser := "babel-eslint" |}
  /\ exists which opts,
       LibFormat which text opts ∈ calls (format W text d customOptions)
       /\ prettier_format (engineOf W d which) text opts = Resolved t.
Proof.
  intros Hin. apply format_calls_inv in Hin as [[Hr Hin]|[_ Hin]]; [|done].
  rewrite format_reached_run by done. simpl.
  pose proof Hin as Hin'.
  apply linter_call_reached in Hin' as [-> Hfmt].
  split; [|split; [done|]].
  - clear Hin. unfold reachedCalls. rewrite Hfmt.
    destruct (secondLookup W d), (engineUsed W d),
      (chainOutcome W d text customOptions); reflexivity.
  - exists (engineUsed W d), (mergedOptions W d customOptions).
    split; [|done]. unfold reachedCalls. rewrite !elem_of_app.
    do 3 right. left. apply list_elem_of_here.
Qed.

Lemma linter_sees_formatter_output_witness :
  let d := Scenario.doc "/home/a.js" "javascript" true ["const x=1"] in
  linterCalls (calls (format Scenario.world "const x=1" d ∅))
    = [("const x=1;", {| fix_ := true; lint_parser := "babel-eslint" |})]
  /\ prettier_format (engineOf Scenario.world d Local) "const x=1"
       (mergedOptions Scenario.world d ∅) = Resolved "const x=1;".
Proof.
  assert (Hin : LintText "const x=1;" autofixOptions
                ∈ calls (format Scenario.world "const x=1"
                           (Scenario.doc "/home/a.js" "javascript" true
                              ["const x=1"]) ∅)).
  { apply list_elem_of_lookup. exists 4%nat. vm_compute. reflexivity. }
  destruct (linter_sees_formatter_output Scenario.world "const x=1"
              (Scenario.doc "/home/a.js" "javascript" true ["const x=1"]) ∅
              "const x=1;" autofixOptions Hin) as (H1 & _ & _).
  exact (conj H1 eq_refl).
Defined.

(** ** What [format] resolves to *)

(** When the formatter returns and the linter hands back at least one
    result, [format] resolves to the [output] of the first result (not to
    the formatter's own output) and reports no error. *)
Theorem format_success_output (W : World) (text : string)
    (d : TextDocument) (customOptions : Config)
    (which : engine) (o : Config) (pretty : string)
    (r : LintResult) (rs : list LintResult) :
  LibFormat which text o ∈ calls (format W text d customOptions) ->
  prettier_format (engineOf W d which) text o = Resolved pretty ->
  standard_lintText W pretty {| fix_ := true; lint_parser := "babel-eslint" |}
    = Resolved {| results := r :: rs |} ->
  result (format W text d customOptions) = Resolved (output r)
  /\ reportedErrors (calls (format W text d customOptions)) = [].
Proof.
  intros Hin Hfmt Hlint.
  apply format_calls_inv in Hin as [[Hr Hin]|[_ Hin]]; [|done].
  rewrite format_reached_run by done. simpl.
  apply formatter_call_reached in Hin as (-> & _ & ->).
  assert (Hchain : chainOutcome W d text customOptions
                   = Resolved (output r)).
  { unfold chainOutcome, autofixOptions. by rewrite Hfmt, Hlint. }
  rewrite Hchain. split; [done|].
  unfold reachedCalls. rewrite ?Hchain, ?Hfmt.
  destruct (secondLookup W d), (engineUsed W d); reflexivity.
Qed.

Lemma format_success_output_witness :
  let d := Scenario.doc "/home/a.css" "css" true ["a{}"] in
  result (format Scenario.world "a{}" d ∅) = Resolved "a{}; // fixed"
  /\ reportedErrors (calls (format Scenario.world "a{}" d ∅)) = [].
Proof.
  apply (format_success_output Scenario.world "a{}"
           (Scenario.doc "/home/a.css" "css" true ["a{}"]) ∅ Bundled
           (mergedOptions Scenario.world
              (Scenario.doc "/home/a.css" "css" true ["a{}"]) ∅)
           "a{};" {| output := "a{}; // fixed" |} []).
  - apply list_elem_of_lookup. exists 4%nat. vm_compute. reflexivity.
  - reflexivity.
  - reflexivity.
Defined.

(** When the linter resolves without any result entry, reading
    [results[0].output] throws: the formatter's output is dropped,
    [format] resolves to the text it was given, and exactly that error is
    reported for the file. *)
Theorem format_empty_lint_results (W : World) (text : string)
    (d : TextDocument) (customOptions : Config)
    (which : engine) (o : Config) (pretty : string) :
  LibFormat which text o ∈ calls (format W text d customOptions) ->
  prettier_format (engineOf W d which) text o = Resolved pretty ->
  standard_lintText W pretty {| fix_ := true; lint_parser := "babel-eslint" |}
    = Resolved {| results := [] |} ->
  result (format W text d customOptions) = Resolved text
  /\ exists e, reportedErrors (calls (format W text d customOptions))
               = [(e, fileName d)].
Proof.
  intros Hin Hfmt Hlint.
  apply format_calls_inv in Hin as [[Hr Hin]|[_ Hin]]; [|done].
  rewrite format_reached_run by done. simpl.
  apply formatter_call_reached in Hin as (-> & _ & ->).
  assert (Hchain : chainOutcome W d text customOptions
                   = Rejected
                       (Error "Cannot read property 'output' of undefined")).
  { unfold chainOutcome, autofixOptions. by rewrite Hfmt, Hlint. }
  rewrite Hchain. split; [done|]. eexists.
  unfold reachedCalls. rewrite ?Hchain, ?Hfmt.
  destruct (secondLookup W d), (engineUsed W d); reflexivity.
Qed.

Lemma format_empty_lint_results_witness :
  let d := Scenario.doc "/home/a.js" "javascript" true ["const x=1"] in
  result (format Variants.silentLinter "const x=1" d ∅)
    = Resolved "const x=1"
  /\ exists e,
       reportedErrors (calls (format Variants.silentLinter "const x=1" d ∅))
       = [(e, "/home/a.js")].
Proof.
  apply (format_empty_lint_results Variants.silentLinter "const x=1"
           (Scenario.doc "/home/a.js" "javascript" true ["const x=1"]) ∅
           Local
           (mergedOptions Variants.silentLinter
              (Scenario.doc "/home/a.js" "javascript" true ["const x=1"]) ∅)
           "const x=1;").
  - apply list_elem_of_lookup. exists 3%nat. vm_compute. reflexivity.
  - reflexivity.
  - reflexivity.
Defined.

(** ** Configuration lookups *)

(** A request looks the project configuration up at most twice, always
    for the document's own path: not at all for a disabled language, once
    (without options) when it is skipped for want of a required
    configuration, and otherwise a second time with [editorconfig]
    enabled. *)
Theorem config_lookups_of_request (W : World) (text : string)
    (d : TextDocument) (customOptions : Config) :
  configLookups (calls (format W text d customOptions)) =
  if bool_decide (languageId d ∈ disableLanguages (getConfig W (uri d)))
  then []
  else if reachesFormatter W d
  then [ (fileName d, None);
         (fileName d, Some {| editorconfig := Some true |}) ]
  else [ (fileName d, None) ].
Proof.
  case_bool_decide as Hlang.
  - by rewrite format_disabled_run.
  - destruct (reachesFormatter W d) eqn:Hr.
    + rewrite format_reached_run by done. simpl.
      reached_cases W d text customOptions; reflexivity.
    + unfold reachesFormatter in Hr.
      rewrite bool_decide_eq_false_2 in Hr by done. simpl in Hr.
      apply negb_false_iff, andb_true_iff in Hr as [Hcfg Hreq].
      apply negb_true_iff in Hcfg.
      rewrite (format_skipped_run W text d customOptions Hlang); [done| |done].
      rewrite hasPrettierConfig_run. simpl. unfold hasConfigOf in Hcfg.
      by rewrite Hcfg.
Qed.

(** A failure of the second lookup is not fatal: the failure message is
    logged once, and the formatter is still called, with an empty
    project-file layer.  Without such a failure the message is never
    logged. *)
Theorem second_lookup_failure (W : World) (text : string)
    (d : TextDocument) (customOptions : Config) :
  countMessage (resolveFailure d) (calls (format W text d customOptions))
  = (if reachesFormatter W d
     then if secondLookup W d is Rejected _ then 1%nat else 0%nat
     else 0%nat)
  /\ forall e, reachesFormatter W d = true ->
       secondLookup W d = Rejected e ->
       exists which,
         formatterCalls (calls (format W text d customOptions))
         = [ (which, text,
              mergeConfig (hasConfigOf W d) customOptions ∅
                (hostLayer (getConfig W (uri d)) (chosenParser W d))) ].
Proof.
  split.
  - destruct (reachesFormatter W d) eqn:Hr.
    + rewrite format_reached_run by done. unfold calls, fst.
      pose proof (messages_differ W (localPrettierOf W d) d) as Hne.
      assert (Hne' : fallbackWarning W (localPrettierOf W d) d
                     <> resolveFailure d) by (intros Heq; by apply Hne).
      unfold countMessage.
      reached_cases W d text customOptions;
        cbn [app List.filter isMessage];
        rewrite ?(bool_decide_eq_true_2
                    (resolveFailure d = resolveFailure d)) by reflexivity;
        rewrite ?(bool_decide_eq_false_2 _ Hne');
        reflexivity.
    + destruct (format_not_reached_run W text d customOptions Hr)
        as [_ [Hc|Hc]]; rewrite Hc; reflexivity.
  - intros e Hr Hsecond. exists (engineUsed W d).
    rewrite format_reached_run by done. simpl.
    assert (Hopts : mergedOptions W d customOptions
                    = mergeConfig (hasConfigOf W d) customOptions ∅
                        (hostLayer (getConfig W (uri d)) (chosenParser W d))).
    { unfold mergedOptions, prettierOptionsOf, fileOptionsOf.
      by rewrite Hsecond. }
    rewrite <- Hopts.
    reached_cases W d text customOptions; reflexivity.
Qed.

Lemma second_lookup_failure_witness :
  let d := Variants.brokenConfigDoc in
  reachesFormatter Scenario.world d = true
  /\ secondLookup Scenario.world d
     = Rejected (Error "Invalid configuration file")
  /\ countMessage (resolveFailure d)
       (calls (format Scenario.world "const x=1" d ∅)) = 1%nat
  /\ exists which,
       formatterCalls (calls (format Scenario.world "const x=1" d ∅))
       = [ (which, "const x=1",
            mergeConfig false ∅ ∅
              (hostLayer (Scenario.settings false) "babylon")) ].
Proof.
  destruct (second_lookup_failure Scenario.world "const x=1"
              Variants.brokenConfigDoc ∅) as [H1 H2].
  exact (conj eq_refl (conj eq_refl (conj H1
           (H2 (Error "Invalid configuration file") eq_refl eq_refl)))).
Defined.

(** [hasPrettierConfig] never rejects and asks the library once, without
    options (so without [editorconfig]); it answers true exactly when the
    library resolves to a configuration that is not null. *)
Theorem hasPrettierConfig_answer (W : World) (filePath : string) :
  calls (hasPrettierConfig W filePath) = [LibResolveConfig filePath None]
  /\ exists b, result (hasPrettierConfig W filePath) = Resolved b
       /\ (b = true <->
           exists c, prettier_resolveConfig (bundledPrettier W) filePath None
                     = Resolved (Some c)).
Proof.
  rewrite hasPrettierConfig_run. simpl. split; [done|].
  eexists; split; [done|].
  destruct (prettier_resolveConfig _ _ _) as [[c|]|e]; split;
    try done; try (intros [c' Hc']; done). eauto.
Qed.

(** When the library's lookup resolves, [resolveConfig] hands its answer
    through unchanged (null included) and sets no error; the error field
    is set exactly when the library failed. *)
Theorem resolveConfig_passes_through (W : World) (filePath : string)
    (options : option ResolveOptions) :
  exists r, result (resolveConfig W filePath options) = Resolved r
    /\ (forall c, prettier_resolveConfig (bundledPrettier W) filePath options
                  = Resolved c ->
                  config r = c /\ error_ r = None)
    /\ (is_Some (error_ r) <->
        exists e, prettier_resolveConfig (bundledPrettier W) filePath options
                  = Rejected e).
Proof.
  rewrite resolveConfig_run. simpl. eexists; split; [done|].
  destruct (prettier_resolveConfig _ _ _) as [c|e]; simpl.
  - split; [by intros c' [= <-]|]. split.
    + by intros [? ?].
    + by intros [? ?].
  - split; [done|]. split; eauto.
Qed.

(** ** Layers of the merged configuration *)

(** The keys of the merge: with a project configuration only the parser
    survives from the host layer; without one all host keys do. *)
Theorem mergeConfig_keys (hasPrettierConfig : bool)
    (additionalConfig prettierConfig vscodeConfig : Config) :
  dom (mergeConfig hasPrettierConfig additionalConfig prettierConfig
         vscodeConfig)
  = dom additionalConfig ∪ dom prettierConfig
    ∪ (if hasPrettierConfig then {[ "parser" ]} else dom vscodeConfig).
Proof.
  unfold mergeConfig, Object_assign.
  destruct hasPrettierConfig; simpl; rewrite !dom_union_L.
  - rewrite dom_singleton_L. by rewrite (assoc_L (∪)).
  - by rewrite (assoc_L (∪)).
Qed.

(** Merging the same layers onto a merged configuration changes
    nothing. *)
Theorem mergeConfig_idempotent (hasPrettierConfig : bool)
    (additionalConfig prettierConfig vscodeConfig : Config) :
  mergeConfig hasPrettierConfig additionalConfig prettierConfig
    (mergeConfig hasPrettierConfig additionalConfig prettierConfig
       vscodeConfig)
  = mergeConfig hasPrettierConfig additionalConfig prettierConfig
      vscodeConfig.
Proof.
  apply map_eq. intros k. unfold mergeConfig.
  destruct hasPrettierConfig; rewrite !Object_assign_two.
  - destruct (additionalConfig !! k) eqn:Ha; [done|].
    destruct (prettierConfig !! k) eqn:Hp; [done|].
    destruct (decide (k = "parser")) as [->|Hk].
    + rewrite !lookup_singleton_eq. unfold get_prop at 1.
      rewrite Object_assign_two, Ha, Hp, lookup_singleton_eq. done.
    + by rewrite !lookup_singleton_ne.
  - destruct (additionalConfig !! k) eqn:Ha; [done|].
    destruct (prettierConfig !! k) eqn:Hp; [done|].
    by rewrite ?Object_assign_two, ?Ha, ?Hp.
Qed.

Lemma formatter_options_inv (W : World) (text : string) (d : TextDocument)
    (customOptions : Config) (which : engine) (t : string) (o : Config) :
  LibFormat which t o ∈ calls (format W text d customOptions) ->
  o = mergeConfig (hasConfigOf W d) customOptions
        (default ∅ (fileOptionsOf W d))
        (hostLayer (getConfig W (uri d)) (chosenParser W d)).
Proof.
  intros Hin. apply format_calls_inv in Hin as [[_ Hin]|[_ Hin]]; [|done].
  by apply formatter_call_reached in Hin as (_ & _ & ->).
Qed.

(** When a project configuration exists, the host's settings other than
    the parser never reach the formatter: every other option comes from
    the call site or from the project file, or is absent. *)
Theorem host_settings_dropped (W : World) (text : string)
    (d : TextDocument) (customOptions : Config)
    (which : engine) (t : string) (o : Config) (k : string) :
  LibFormat which t o ∈ calls (format W text d customOptions) ->
  hasConfigOf W d = true ->
  k <> "parser" ->
  o !! k = match customOptions !! k with
           | Some v => Some v
           | None => default ∅ (fileOptionsOf W d) !! k
           end.
Proof.
  intros Hin Hcfg Hk. apply formatter_options_inv in Hin as ->.
  rewrite Hcfg. unfold mergeConfig. rewrite Object_assign_two.
  destruct (customOptions !! k); [done|].
  destruct (default ∅ (fileOptionsOf W d) !! k); [done|].
  by rewrite lookup_singleton_ne.
Qed.

Lemma host_settings_dropped_witness :
  let d := Scenario.doc "/proj/a.js" "javascript" true ["const x=1"] in
  let o := mergedOptions Scenario.world d ∅ in
  LibFormat Local "const x=1" o
    ∈ calls (format Scenario.world "const x=1" d ∅)
  /\ hasConfigOf Scenario.world d = true
  /\ printWidth (getConfig Scenario.world (uri d)) = JNum 80
  /\ o !! "printWidth" = None.
Proof.
  assert (Hin : LibFormat Local "const x=1"
                  (mergedOptions Scenario.world
                     (Scenario.doc "/proj/a.js" "javascript" true
                        ["const x=1"]) ∅)
                ∈ calls (format Scenario.world "const x=1"
                           (Scenario.doc "/proj/a.js" "javascript" true
                              ["const x=1"]) ∅)).
  { apply list_elem_of_lookup. exists 3%nat. vm_compute. reflexivity. }
  split; [exact Hin|split; [reflexivity|split; [reflexivity|]]].
  exact (host_settings_dropped Scenario.world "const x=1"
           (Scenario.doc "/proj/a.js" "javascript" true ["const x=1"]) ∅
           Local "const x=1" _ "printWidth" Hin eq_refl
           ltac:(discriminate)).
Defined.

(** Without a project configuration, a host setting reaches the
    formatter unless the call site or the second lookup (editorconfig)
    sets the same key; the eleven host keys are always present. *)
Theorem host_settings_passed (W : World) (text : string)
    (d : TextDocument) (customOptions : Config)
    (which : engine) (t : string) (o : Config) :
  LibFormat which t o ∈ calls (format W text d customOptions) ->
  hasConfigOf W d = false ->
  (forall k, customOptions !! k = None ->
             default ∅ (fileOptionsOf W d) !! k = None ->
             o !! k = hostLayer (getConfig W (uri d)) (chosenParser W d) !! k)
  /\ {[ "printWidth"; "tabWidth"; "singleQuote"; "trailingComma";
        "bracketSpacing"; "jsxBracketSameLine"; "parser"; "semi";
        "useTabs"; "proseWrap"; "arrowParens" ]} ⊆ dom o.
Proof.
  intros Hin Hcfg. apply formatter_options_inv in Hin as ->.
  rewrite Hcfg. split.
  - intros k Hc Hf. unfold mergeConfig.
    by rewrite Object_assign_two, Hc, Hf.
  - unfold mergeConfig, Object_assign. simpl. rewrite !dom_union_L.
    intros k Hk. apply elem_of_union_r, elem_of_union_r, elem_of_dom.
    rewrite !elem_of_union, !elem_of_singleton in Hk.
    destruct_or!; subst k; eexists; reflexivity.
Qed.

Lemma host_settings_passed_witness :
  let d := Scenario.doc "/home/a.js" "javascript" true ["const x=1"] in
  let o := mergedOptions Scenario.world d ∅ in
  LibFormat Local "const x=1" o
    ∈ calls (format Scenario.world "const x=1" d ∅)
  /\ hasConfigOf Scenario.world d = false
  /\ o !! "singleQuote" = Some (JBool true).
Proof.
  assert (Hin : LibFormat Local "const x=1"
                  (mergedOptions Scenario.world
                     (Scenario.doc "/home/a.js" "javascript" true
                        ["const x=1"]) ∅)
                ∈ calls (format Scenario.world "const x=1"
                           (Scenario.doc "/home/a.js" "javascript" true
                              ["const x=1"]) ∅)).
  { apply list_elem_of_lookup. exists 3%nat. vm_compute. reflexivity. }
  split; [exact Hin|split; [reflexivity|]].
  destruct (host_settings_passed Scenario.world "const x=1"
              (Scenario.doc "/home/a.js" "javascript" true ["const x=1"]) ∅
              Local "const x=1" _ Hin eq_refl) as [Hk _].
  exact (Hk "singleQuote" eq_refl eq_refl).
Defined.

(** ** Further properties of the edit provider *)

(** The ignore predicate is not consulted for an untitled document: both
    operations behave the same whatever the predicate says. *)
Theorem untitled_never_ignored (W : World)
    (ignoredA ignoredB : string -> bool) (d : TextDocument) (r : Range) :
  isUntitled d = true ->
  provideDocumentFormattingEdits W ignoredA d
    = provideDocumentFormattingEdits W ignoredB d
  /\ provideDocumentRangeFormattingEdits W ignoredA d r
     = provideDocumentRangeFormattingEdits W ignoredB d r.
Proof.
  intros Hu.
  unfold provideDocumentFormattingEdits, provideDocumentRangeFormattingEdits.
  rewrite !provideEdits_run, Hu. done.
Qed.

Lemma untitled_never_ignored_witness :
  let d := Scenario.doc "/vendor/lib.js" "javascript" false ["var a"] in
  Scenario.ignored (fileName d) = true
  /\ provideDocumentFormattingEdits Scenario.world Scenario.ignored d
     = provideDocumentFormattingEdits Scenario.world (fun _ => false) d.
Proof.
  split; [reflexivity|].
  exact (proj1 (untitled_never_ignored Scenario.world Scenario.ignored
                  (fun _ => false)
                  (Scenario.doc "/vendor/lib.js" "javascript" false ["var a"])
                  (new_Range 0 0 0 0) eq_refl)).
Defined.

(** The empty edit list means "ignored" and nothing else: an operation
    resolves to no edits exactly when the document is saved and its path
    is ignored.  Skipped and failed formatting never give an empty
    list. *)
Theorem no_edits_iff_ignored (W : World)
    (_fileIsIgnored : string -> bool) (d : TextDocument) (r : Range) :
  (result (provideDocumentFormattingEdits W _fileIsIgnored d) = Resolved []
   <-> isUntitled d = false /\ _fileIsIgnored (fileName d) = true)
  /\ (result (provideDocumentRangeFormattingEdits W _fileIsIgnored d r)
      = Resolved []
      <-> isUntitled d = false /\ _fileIsIgnored (fileName d) = true).
Proof.
  unfold provideDocumentFormattingEdits, provideDocumentRangeFormattingEdits.
  rewrite !provideEdits_run.
  destruct (isUntitled d), (_fileIsIgnored (fileName d)); simpl;
    (split; split; [|by intros [? ?]| |by intros [? ?]]); try done;
    intros H;
    repeat match type of H with
           | context [match ?x with _ => _ end] => destruct x
           end; done.
Qed.

(** A request that is skipped (disabled language, or a required project
    configuration that is missing) still produces an edit: one
    replacement of the whole document by its own text. *)
Theorem skipped_request_rewrites_same_text (W : World)
    (_fileIsIgnored : string -> bool) (d : TextDocument)
    (lastLine : string) :
  (isUntitled d = true \/ _fileIsIgnored (fileName d) = false) ->
  reachesFormatter W d = false ->
  last (lines d) = Some lastLine ->
  result (provideDocumentFormattingEdits W _fileIsIgnored d)
  = Resolved
      [ {| range := new_Range 0 0 (lineCount d - 1)
                      (Z.of_nat (String.length lastLine));
           newText := getText d |} ]
  /\ forall ev, ev ∈ calls (provideDocumentFormattingEdits W _fileIsIgnored d)
       -> isFormatterCall ev = false /\ isLinterCall ev = false.
Proof.
  intros Hign Hr Hlast. unfold provideDocumentFormattingEdits.
  rewrite provideEdits_run, lineAt_last, Hlast.
  assert (Hcond : negb (isUntitled d) && _fileIsIgnored (fileName d) = false).
  { destruct Hign as [->| ->]; [done|]. apply andb_false_r. }
  rewrite Hcond.
  destruct (format_not_reached_run W (getText d) d ∅ Hr) as [Hres Hcalls].
  simpl. rewrite Hres. split; [done|].
  intros ev Hev. destruct Hcalls as [Hc|Hc]; rewrite Hc in Hev;
    elem_of_log Hev.
Qed.

Lemma skipped_request_rewrites_same_text_witness :
  let d := Scenario.doc "/home/notes.md" "markdown" true ["# a"; "text"] in
  reachesFormatter Scenario.world d = false
  /\ result (provideDocumentFormattingEdits Scenario.world Scenario.ignored d)
     = Resolved [ {| range := new_Range 0 0 1 4; newText := getText d |} ].
Proof.
  split; [reflexivity|].
  exact (proj1 (skipped_request_rewrites_same_text Scenario.world
                  Scenario.ignored
                  (Scenario.doc "/home/notes.md" "markdown" true
                     ["# a"; "text"])
                  "text" (or_intror eq_refl) eq_refl eq_refl)).
Defined.

(** In the range operation the requested range always reaches the
    formatter as [rangeStart] and [rangeEnd], the offsets of the range's
    ends: no project file or host setting can override them. *)
Theorem range_offsets_reach_formatter (W : World)
    (_fileIsIgnored : string -> bool) (d : TextDocument) (r : Range)
    (which : engine) (t : string) (o : Config) :
  LibFormat which t o
    ∈ calls (provideDocumentRangeFormattingEdits W _fileIsIgnored d r) ->
  o !! "rangeStart" = Some (JNum (offsetAt d (start r)))
  /\ o !! "rangeEnd" = Some (JNum (offsetAt d (end_ r))).
Proof.
  unfold provideDocumentRangeFormattingEdits. rewrite provideEdits_run.
  destruct (negb (isUntitled d) && _fileIsIgnored (fileName d)); simpl;
    intros Hin; [elem_of_log Hin|].
  apply formatter_options_inv in Hin as ->.
  unfold mergeConfig.
  destruct (hasConfigOf W d); rewrite !Object_assign_two; done.
Qed.

Lemma range_offsets_reach_formatter_witness :
  let d := Scenario.doc "/proj/a.js" "javascript" true ["x"; "yy"] in
  let r := new_Range 0 0 1 1 in
  let o := mergedOptions Scenario.world d
             {[ "rangeStart" := JNum 0; "rangeEnd" := JNum 11 ]} in
  LibFormat Local (getText d) o
    ∈ calls (provideDocumentRangeFormattingEdits Scenario.world
               Scenario.ignored d r)
  /\ o !! "rangeStart" = Some (JNum 0) /\ o !! "rangeEnd" = Some (JNum 11).
Proof.
  assert (Hin : LibFormat Local
                  (getText
                     (Scenario.doc "/proj/a.js" "javascript" true ["x"; "yy"]))
                  (mergedOptions Scenario.world
                     (Scenario.doc "/proj/a.js" "javascript" true ["x"; "yy"])
                     {[ "rangeStart" := JNum 0; "rangeEnd" := JNum 11 ]})
                ∈ calls (provideDocumentRangeFormattingEdits Scenario.world
                           Scenario.ignored
                           (Scenario.doc "/proj/a.js" "javascript" true
                              ["x"; "yy"])
                           (new_Range 0 0 1 1))).
  { apply list_elem_of_lookup. exists 3%nat. vm_compute. reflexivity. }
  split; [exact Hin|].
  exact (range_offsets_reach_formatter Scenario.world Scenario.ignored
           (Scenario.doc "/proj/a.js" "javascript" true ["x"; "yy"])
           (new_Range 0 0 1 1) Local _ _ Hin).
Defined.

(** [format] never rejects, and what it resolves to is either the text it
    was given or the [output] of the linter's first result for this
    request; the formatter's own output is never returned as such. *)
Theorem format_result_cases (W : World) (text : string)
    (d : TextDocument) (customOptions : Config) :
  exists s, result (format W text d customOptions) = Resolved s
    /\ (s = text
        \/ exists t o report r,
             LintText t o ∈ calls (format W text d customOptions)
             /\ standard_lintText W t o = Resolved report
             /\ head (results report) = Some r
             /\ s = output r).
Proof.
  destruct (reachesFormatter W d) eqn:Hr.
  - rewrite format_reached_run by done. simpl. eexists; split; [done|].
    unfold chainOutcome, reachedCalls.
    destruct (prettier_format _ _ _) as [pretty|e]; [|by left].
    destruct (standard_lintText W pretty autofixOptions)
      as [[[|r rs]]|e] eqn:Hlint; [by left| |by left].
    right. exists pretty, autofixOptions, {| results := r :: rs |}, r.
    split; [|done]. rewrite !elem_of_app. do 4 right. left.
    apply list_elem_of_here.
  - destruct (format_not_reached_run W text d customOptions Hr) as [-> _].
    eexists; split; [done|by left].
Qed.
